(** * FileShare: the share-record lifecycle of [app.py]

    A shallow embedding of the request handlers of the single-file Flask
    application ([upload], [view_file], [download], [recent]), of its
    cleanup helpers ([_delete_file_record], [_delete_row_only]) and of
    [human_size], followed by the properties of the record lifecycle.

    Modelling choices, all read off the source:
    - the table [files] is a finite map from the primary key [id] to the
      remaining columns; [SELECT ... WHERE id=?] is a lookup, [DELETE] is
      [delete], [UPDATE ... SET downloads=downloads+1] is [alter], and an
      [INSERT] on an existing key raises (sqlite3.IntegrityError);
    - the directory [UPLOAD_DIR] is a finite map from file names to contents;
    - an instant is a number of microseconds (the resolution of Python's
      [datetime]); the TEXT columns [created_at] and [expires_at] hold
      [isoformat()] of UTC instants, which [fromisoformat] inverts and whose
      text order is the order of the instants, so the model keeps the instant;
    - a handler receives the readings of [utcnow()] it makes as arguments,
      one argument per call site;
    - every statement that changes the table or the directory appends an
      event to a trace, in program order;
    - of the calls on the directory and the table only [f.save] is given a
      failing outcome, the one the order of statements in [upload] is about;
      [os.remove], [os.path.getsize] and the SQL statements do what they say;
    - [downloads] is an unbounded integer: one increment per request does
      not reach the 64-bit bound of an SQLite INTEGER;
    - requests are handled one at a time; the operation [OpClose] is a call
      of [Response.close()] on a response returned earlier, right after the
      download or after other requests; what the WSGI server does when a
      response has been sent is [wsgi_finish]. *)

From stdpp Require Import gmap strings list sorting.
From Stdlib Require Import ZArith Lia QArith.

Local Open Scope Z_scope.

(** ** Data *)

Definition timestamp := Z.
Definition bytes := list Byte.byte.

(** [timedelta(hours=h)], in microseconds. *)
Definition timedelta_hours (h : Z) : Z := h * (3600 * 1000000).

(** The columns of [files] other than the key [id]. [one_time] is the
    INTEGER flag written as [1] or [0] by [upload] and read by truth value. *)
Record Row := mkRow {
  stored_name : string;
  original_name : string;
  size_bytes : Z;
  mime : option string;
  created_at : timestamp;
  expires_at : option timestamp;
  one_time : bool;
  downloads : Z
}.

(** A fetched [sqlite3.Row]: the key together with its columns. *)
Abbreviation SqlRow := (string * Row)%type.

Definition incr_downloads (r : Row) : Row :=
  mkRow (stored_name r) (original_name r) (size_bytes r) (mime r)
        (created_at r) (expires_at r) (one_time r) (downloads r + 1).

Inductive Event :=
| EvFileWrite (name : string) (content : bytes)
| EvFileWriteFailed (name : string)
| EvFileRemove (name : string)
| EvInsert (fid : string)
| EvUpdate (fid : string)
| EvDelete (fid : string).

Record World := mkWorld {
  db : gmap string Row;
  files : gmap string bytes;
  trace : list Event
}.

Definition empty_world : World := mkWorld ∅ ∅ [].

(** ** Responses *)

Inductive Response :=
| RedirectIndex (flashed : string)
| RedirectView (fid : string)
| DetailPage (fid : string) (row : Row) (downloadable : bool)
| SendFile (name : string) (content : bytes) (download_name : string)
           (mimetype : string) (on_close : option SqlRow)
| RecentPage (items : list (string * string * Z))
| Abort (code : Z)
| InternalError.

(** ** Store and directory primitives *)

Definition log (e : Event) (w : World) : World :=
  mkWorld (db w) (files w) (trace w ++ [e]).

(** [os.remove(file_path)] *)
Definition os_remove (name : string) (w : World) : World :=
  log (EvFileRemove name) (mkWorld (db w) (delete name (files w)) (trace w)).

(** [DELETE FROM files WHERE id=?] *)
Definition db_delete (fid : string) (w : World) : World :=
  log (EvDelete fid) (mkWorld (delete fid (db w)) (files w) (trace w)).

(** [UPDATE files SET downloads=downloads+1 WHERE id=?] *)
Definition db_incr (fid : string) (w : World) : World :=
  log (EvUpdate fid) (mkWorld (alter incr_downloads fid (db w)) (files w) (trace w)).

(** [INSERT INTO files ...] on a key that is free. *)
Definition db_insert (fid : string) (r : Row) (w : World) : World :=
  log (EvInsert fid) (mkWorld (<[fid := r]> (db w)) (files w) (trace w)).

(** A completed [f.save(path)]. *)
Definition fs_write (name : string) (c : bytes) (w : World) : World :=
  log (EvFileWrite name c) (mkWorld (db w) (<[name := c]> (files w)) (trace w)).

(** [f.save(path)] that raised: nothing on disk, or a truncated file. *)
Definition fs_write_failed (name : string) (partial : option bytes) (w : World) : World :=
  log (EvFileWriteFailed name)
      (mkWorld (db w)
               (match partial with
                | Some c => <[name := c]> (files w)
                | None => files w
                end)
               (trace w)).

(** ** Cleanup helpers *)

Definition _delete_file_record (row : SqlRow) (w : World) : World :=
  let w1 := match files w !! stored_name row.2 with
            | Some _ => os_remove (stored_name row.2) w
            | None => w
            end in
  db_delete row.1 w1.

Definition _delete_row_only (fid : string) (w : World) : World :=
  db_delete fid w.

(** ** Expiry test

    [expires_at and utcnow() > expires_at]: a [datetime] is always truthy, so
    the test is false for NULL and a strict comparison otherwise. *)
Definition is_expired (now : timestamp) (row : Row) : bool :=
  match expires_at row with
  | Some e => bool_decide (e < now)
  | None => false
  end.

(** ** Handlers that do not depend on library functions *)

(** [GET /f/<fid>] *)
Definition view_file (fid : string) (now : timestamp) (w : World) : Response * World :=
  match db w !! fid with
  | None => (Abort 404, w)
  | Some row =>
      if is_expired now row
      then (DetailPage fid row false, _delete_file_record (fid, row) w)
      else (DetailPage fid row true, w)
  end.

(** [row["mime"] or "application/octet-stream"] *)
Definition mime_or_default (m : option string) : string :=
  match m with
  | Some s => if decide (s = "") then "application/octet-stream" else s
  | None => "application/octet-stream"
  end.

(** [GET /d/<fid>]: the handler up to [return resp]. [send_file] answers
    with the file found at the path (range and conditional answers are not
    told apart). The cleanup registered with [call_on_close] is carried by
    the response and run by [close_response]. *)
Definition download (fid : string) (now : timestamp) (w : World) : Response * World :=
  match db w !! fid with
  | None => (Abort 404, w)
  | Some row =>
      if is_expired now row
      then (Abort 410, _delete_file_record (fid, row) w)
      else
        match files w !! stored_name row with
        | None => (Abort 404, _delete_row_only fid w)
        | Some content =>
            (SendFile (stored_name row) content (original_name row)
                      (mime_or_default (mime row))
                      (if one_time row then Some (fid, row) else None),
             db_incr fid w)
        end
  end.

(** [Response.close()] is called on the response: the [_cleanup]
    registered with [call_on_close] runs, with the row that [download]
    fetched before the counter was updated. *)
Definition close_response (resp : Response) (w : World) : World :=
  match resp with
  | SendFile _ _ _ _ (Some row) => _delete_file_record row w
  | _ => w
  end.

(** The response has been sent over WSGI. The server closes the iterable
    that the response hands it. [send_file] builds its response with
    [direct_passthrough] set, and for such a response that iterable is the
    file wrapper itself: closing it closes the file, [Response.close()] is
    not called, and the callbacks registered with [call_on_close] do not
    run. The other responses register no callback. *)
Definition wsgi_finish (resp : Response) (w : World) : World :=
  match resp with
  | SendFile _ _ _ _ _ => w
  | _ => close_response resp w
  end.

(** [ORDER BY created_at DESC] *)
Definition newer_first (a b : SqlRow) : Prop := created_at b.2 ≤ created_at a.2.

Global Instance newer_first_dec a b : Decision (newer_first a b).
Proof. unfold newer_first. apply _. Defined.

Definition select_recent (w : World) : list SqlRow :=
  take 20 (merge_sort newer_first (map_to_list (db w))).

(** [GET /recent] *)
Definition recent (w : World) : Response * World :=
  (RecentPage (map (λ r : SqlRow, (r.1, original_name r.2, size_bytes r.2))
                   (select_recent w)),
   w).

(** ** Sizes for display

    [human_size]: the number and the unit that the f-string puts together.
    The float [f] is kept as a rational: up to [2^53] in absolute value
    [float(n)] is [n], and dividing by 1024 only lowers the exponent, so the
    rational is the float. The rounding to two decimals done by [:.2f] is
    not modelled. The loop runs while [i < len(units) - 1], so
    [len(units) - 1] rounds are all it can make, and [units[i]] is always in
    range. *)
Definition units : list string := ["B"; "KB"; "MB"; "GB"; "TB"].

Fixpoint human_size_loop (fuel : nat) (f : Q) (i : nat) : Q * nat :=
  match fuel with
  | O => (f, i)
  | S fuel' =>
      if Qle_bool (inject_Z 1024) f && bool_decide (i < length units - 1)%nat
      then human_size_loop fuel' (f / inject_Z 1024)%Q (i + 1)
      else (f, i)
  end.

Definition human_size (n : Z) : Q * string :=
  let r := human_size_loop (length units - 1) (inject_Z n) 0 in
  (r.1, nth r.2 units "").

(** ** Upload *)

(** The form field [expires] as [request.form.get("expires", type=int,
    default=24)] sees it: missing, present but rejected by [int()]
    (the default is returned), or converted. *)
Inductive FormInt :=
| FieldAbsent
| FieldInvalid
| FieldInt (z : Z).

Definition form_get_int (f : FormInt) (default : Z) : Z :=
  match f with
  | FieldInt z => z
  | FieldAbsent | FieldInvalid => default
  end.

Record UploadForm := mkUploadForm {
  file_field : option (string * bytes);   (* filename and body of [file] *)
  expires_field : FormInt;
  mode_field : option string
}.

(** What [f.save(path)] did. *)
Inductive SaveOutcome :=
| SaveOk
| SaveFailed (partial : option bytes).

(** [hours and hours > 0] *)
Definition wants_expiry (hours : Z) : bool :=
  negb (hours =? 0) && (0 <? hours).

Definition requested_hours (form : UploadForm) : Z :=
  form_get_int (expires_field form) 24.

Definition requested_one_time (form : UploadForm) : bool :=
  bool_decide (mode_field form = Some "one").

Section Handlers.

(** Library functions the handler calls; only their results matter. *)
Variable secure_filename : string → string.
Variable splitext_ext : string → string.          (* [os.path.splitext(_)[1]] *)
Variable guess_type : string → option string.     (* [mimetypes.guess_type(_)[0]] *)

Definition upload_stored_name (token filename : string) : string :=
  token +:+ splitext_ext (secure_filename filename).

(** [POST /upload]. [token] is the value of [secrets.token_urlsafe(8)],
    [saved] the outcome of [f.save], [t_expiry] the clock reading used
    for [expires_at] and [t_created] the later one stored as
    [created_at]. *)
Definition upload (form : UploadForm) (token : string) (saved : SaveOutcome)
           (t_expiry t_created : timestamp) (w : World) : Response * World :=
  match file_field form with
  | None => (RedirectIndex "No file selected.", w)
  | Some (filename, body) =>
      if decide (filename = "") then (RedirectIndex "No file selected.", w)
      else
        let original := secure_filename filename in
        let ext := splitext_ext original in
        let fid := token in
        let stored := fid +:+ ext in
        match saved with
        | SaveFailed partial => (InternalError, fs_write_failed stored partial w)
        | SaveOk =>
            let w1 := fs_write stored body w in
            let size := Z.of_nat (length body) in
            let hours := requested_hours form in
            let expires :=
              if wants_expiry hours
              then Some (t_expiry + timedelta_hours (Z.min hours (24 * 7)))
              else None in
            let row := mkRow stored original size (guess_type original)
                             t_created expires (requested_one_time form) 0 in
            match db w1 !! fid with
            | Some _ => (InternalError, w1)
            | None => (RedirectView fid, db_insert fid row w1)
            end
        end
  end.

(** ** Requests as operations on the world *)

Inductive Op :=
| OpUpload (form : UploadForm) (token : string) (saved : SaveOutcome)
           (t_expiry t_created : timestamp)
| OpView (fid : string) (now : timestamp)
| OpDownload (fid : string) (now : timestamp)
| OpClose (resp : Response)
| OpRecent.

Definition step (op : Op) (w : World) : Response * World :=
  match op with
  | OpUpload form token saved t1 t2 => upload form token saved t1 t2 w
  | OpView fid now => view_file fid now w
  | OpDownload fid now => download fid now w
  | OpClose resp => (resp, close_response resp w)
  | OpRecent => recent w
  end.

Fixpoint run (ops : list Op) (w : World) : World :=
  match ops with
  | [] => w
  | op :: rest => run rest (step op w).2
  end.

(** The key an operation may insert, and the file name it may create. *)
Definition op_token (op : Op) : option string :=
  match op with
  | OpUpload _ token _ _ _ => Some token
  | _ => None
  end.

Definition op_writes (op : Op) : option string :=
  match op with
  | OpUpload form token _ _ _ =>
      match file_field form with
      | Some (filename, _) => Some (upload_stored_name token filename)
      | None => None
      end
  | _ => None
  end.

(** A download that was answered with the file. *)
Definition served (fid : string) (op : Op) (w : World) : bool :=
  match op with
  | OpDownload fid' now =>
      bool_decide (fid' = fid) &&
      match (download fid' now w).1 with
      | SendFile _ _ _ _ _ => true
      | _ => false
      end
  | _ => false
  end.

Fixpoint count_served (fid : string) (ops : list Op) (w : World) : Z :=
  match ops with
  | [] => 0
  | op :: rest =>
      (if served fid op w then 1 else 0) + count_served fid rest (step op w).2
  end.

(** The row that [upload] inserts. *)
Definition upload_row (form : UploadForm) (token filename : string) (body : bytes)
           (t_expiry t_created : timestamp) : Row :=
  mkRow (upload_stored_name token filename) (secure_filename filename)
        (Z.of_nat (length body)) (guess_type (secure_filename filename))
        t_created
        (if wants_expiry (requested_hours form)
         then Some (t_expiry + timedelta_hours (Z.min (requested_hours form) (24 * 7)))
         else None)
        (requested_one_time form) 0.

Inductive UploadOutcome (form : UploadForm) (token : string) (saved : SaveOutcome)
          (t1 t2 : timestamp) (w : World) : Response * World → Prop :=
| UploadNoFile :
    (file_field form = None ∨ ∃ body, file_field form = Some ("", body)) →
    UploadOutcome form token saved t1 t2 w (RedirectIndex "No file selected.", w)
| UploadSaveFailed filename body partial :
    file_field form = Some (filename, body) → filename ≠ "" →
    saved = SaveFailed partial →
    UploadOutcome form token saved t1 t2 w
      (InternalError, fs_write_failed (upload_stored_name token filename) partial w)
| UploadDuplicate filename body old :
    file_field form = Some (filename, body) → filename ≠ "" →
    saved = SaveOk → db w !! token = Some old →
    UploadOutcome form token saved t1 t2 w
      (InternalError, fs_write (upload_stored_name token filename) body w)
| UploadStored filename body :
    file_field form = Some (filename, body) → filename ≠ "" →
    saved = SaveOk → db w !! token = None →
    UploadOutcome form token saved t1 t2 w
      (RedirectView token,
       db_insert token (upload_row form token filename body t1 t2)
                 (fs_write (upload_stored_name token filename) body w)).

(** ** Vocabulary for the properties of sequences of requests *)

(** The row a response deletes when it is closed. *)
Definition cleanup_row (resp : Response) : option SqlRow :=
  match resp with
  | SendFile _ _ _ _ c => c
  | _ => None
  end.


(** The stored name is the key followed by an extension, and the key has
    the length of a token ([secrets.token_urlsafe(8)] yields 11 characters). *)
Definition named_after (n : nat) (fid : string) (row : Row) : Prop :=
  String.length fid = n ∧ ∃ ext, stored_name row = fid +:+ ext.

Definition rows_have_files (n : nat) (w : World) : Prop :=
  ∀ fid row, db w !! fid = Some row →
    named_after n fid row ∧ is_Some (files w !! stored_name row).

(** A sequence of requests in which every token has [n] characters and
    every response that is closed was returned by an earlier request. *)
Fixpoint genuine (n : nat) (seen : list Response) (ops : list Op) (w : World) : Prop :=
  match ops with
  | [] => True
  | op :: rest =>
      match op with
      | OpUpload _ token _ _ _ => String.length token = n
      | OpClose resp => resp ∈ seen
      | _ => True
      end
      ∧ genuine n ((step op w).1 :: seen) rest (step op w).2
  end.

(** A download of [fid] at each of the instants, each response closed
    before the next request. *)
Definition download_and_close (fid : string) (resp : Response) (times : list timestamp)
  : list Op :=
  flat_map (λ t, [OpDownload fid t; OpClose resp]) times.

(** ** Sample records for the concrete runs *)

(** Stand-ins for the library functions: the name is kept as sent, its
    extension is [".txt"], and no MIME type is guessed. *)
Definition keep_name (s : string) : string := s.
Definition txt_ext (_ : string) : string := ".txt".
Definition no_guess (_ : string) : option string := None.

Definition abc : bytes := [Byte.x61; Byte.x62; Byte.x63].

(** A one-time record created at instant 100 that expires at instant 200. *)
Definition sample_row : Row :=
  mkRow "k1.txt" "notes.txt" 3 (Some "text/plain") 100 (Some 200) true 0.

Definition sample_world : World :=
  mkWorld {[ "k1" := sample_row ]} {[ "k1.txt" := abc ]} [].

(** The same record with its file removed behind the application's back. *)
Definition orphan_world : World :=
  mkWorld {[ "k1" := sample_row ]} ∅ [].

(** A standard record that never expires, with its file. *)
Definition standard_row : Row :=
  mkRow "k2.txt" "report.txt" 3 None 100 None false 0.

Definition standard_world : World :=
  mkWorld {[ "k2" := standard_row ]} {[ "k2.txt" := abc ]} [].

Definition sample_form (hours : FormInt) : UploadForm :=
  mkUploadForm (Some ("notes.txt", abc)) hours (Some "one").

(** * Properties *)

Arguments _delete_file_record : simpl never.

Global Instance newer_first_total : Total newer_first.
Proof. intros a b. unfold newer_first. lia. Qed.

Global Instance newer_first_trans : Transitive newer_first.
Proof. intros a b c. unfold newer_first. lia. Qed.

(** ** The primitives *)

Lemma delete_file_record_db row w :
  db (_delete_file_record row w) = delete row.1 (db w).
Proof.
  unfold _delete_file_record. destruct (files w !! stored_name row.2); reflexivity.
Qed.

Lemma delete_file_record_files row w :
  files (_delete_file_record row w) = delete (stored_name row.2) (files w).
Proof.
  unfold _delete_file_record.
  destruct (files w !! stored_name row.2) eqn:E; simpl; [reflexivity|].
  symmetry. by apply delete_id.
Qed.

Lemma delete_file_record_gone fid row w :
  db (_delete_file_record (fid, row) w) !! fid = None
  ∧ files (_delete_file_record (fid, row) w) !! stored_name row = None.
Proof.
  rewrite delete_file_record_db, delete_file_record_files. simpl.
  split; apply lookup_delete_eq.
Qed.

Lemma is_expired_true now row :
  is_expired now row = true ↔ ∃ e, expires_at row = Some e ∧ e < now.
Proof.
  unfold is_expired. destruct (expires_at row) as [e|].
  - rewrite bool_decide_eq_true. split; [eauto|]. by intros (? & [= <-] & ?).
  - split; [done|]. by intros (? & ? & ?).
Qed.

Lemma view_file_absent fid now w :
  db w !! fid = None → view_file fid now w = (Abort 404, w).
Proof. intros H. unfold view_file. by rewrite H. Qed.

Lemma download_absent fid now w :
  db w !! fid = None → download fid now w = (Abort 404, w).
Proof. intros H. unfold download. by rewrite H. Qed.

Lemma close_response_db_None resp w fid :
  db w !! fid = None → db (close_response resp w) !! fid = None.
Proof.
  intros H. destruct resp as [| | | ? ? ? ? [row|] | | |]; cbn [close_response]; try done.
  rewrite delete_file_record_db. rewrite lookup_delete_None. by right.
Qed.

Lemma close_response_files_None resp w name :
  files w !! name = None → files (close_response resp w) !! name = None.
Proof.
  intros H. destruct resp as [| | | ? ? ? ? [row|] | | |]; cbn [close_response]; try done.
  rewrite delete_file_record_files. rewrite lookup_delete_None. by right.
Qed.

(** ** The outcomes of an upload *)

Lemma upload_outcome form token saved t1 t2 w :
  UploadOutcome form token saved t1 t2 w (upload form token saved t1 t2 w).
Proof.
  unfold upload. destruct (file_field form) as [[filename body]|] eqn:Hf.
  - case_decide as Hname.
    + subst. constructor. right. eauto.
    + destruct saved as [|partial].
      * cbn zeta. change (db (fs_write _ _ w)) with (db w).
        destruct (db w !! token) as [old|] eqn:Hdb.
        -- by eapply UploadDuplicate.
        -- by eapply UploadStored.
      * by eapply UploadSaveFailed.
  - constructor. by left.
Qed.

Lemma upload_stored form token filename body t1 t2 w :
  file_field form = Some (filename, body) → filename ≠ "" → db w !! token = None →
  upload form token SaveOk t1 t2 w =
    (RedirectView token,
     db_insert token (upload_row form token filename body t1 t2)
               (fs_write (upload_stored_name token filename) body w)).
Proof.
  intros Hf Hname Hfree.
  destruct (upload_outcome form token SaveOk t1 t2 w)
    as [[?|[? ?]]|????? [=]|? ? old ? ? ? Hold|? ? ? ? ? ?]; try congruence.
Qed.

Lemma upload_stored_lookup form token filename body t1 t2 w :
  file_field form = Some (filename, body) → filename ≠ "" → db w !! token = None →
  (upload form token SaveOk t1 t2 w).1 = RedirectView token
  ∧ db (upload form token SaveOk t1 t2 w).2 !! token
      = Some (upload_row form token filename body t1 t2)
  ∧ files (upload form token SaveOk t1 t2 w).2 !! upload_stored_name token filename
      = Some body.
Proof.
  intros Hf Hname Hfree. rewrite (upload_stored _ _ _ _ _ _ _ Hf Hname Hfree).
  cbn [fst snd]. simpl. by rewrite !lookup_insert_eq.
Qed.

(** What an upload in mode [one] leaves behind: a one-time row with a zero
    counter, and its file. *)
Lemma upload_one_time_record form token filename body t1 t2 w :
  file_field form = Some (filename, body) → filename ≠ "" → db w !! token = None →
  mode_field form = Some "one" →
  ∃ row, db (upload form token SaveOk t1 t2 w).2 !! token = Some row
    ∧ one_time row = true
    ∧ downloads row = 0
    ∧ files (upload form token SaveOk t1 t2 w).2 !! stored_name row = Some body.
Proof.
  intros Hf Hname Hfree Hmode.
  destruct (upload_stored_lookup form token filename body t1 t2 w Hf Hname Hfree)
    as (_ & Hrow & Hfile).
  eexists. split; [done|]. cbn [upload_row one_time downloads stored_name].
  unfold requested_one_time. rewrite Hmode. done.
Qed.

(** ** Expiry requested at upload *)

(** C2 (amended). An upload that goes through stores [expires_at] NULL when
    the requested hours are 0, and the clock reading taken for the expiry
    plus [min(hours, 168)] hours when they are positive; more than 168 hours
    is accepted and stored as 168. [created_at] is a second, later clock
    reading, so the stored [expires_at] is [created_at] plus those hours
    only when the two readings agree. *)
Theorem upload_expiry_policy form token filename body t_expiry t_created w :
  file_field form = Some (filename, body) → filename ≠ "" → db w !! token = None →
  let out := upload form token SaveOk t_expiry t_created w in
  let hours := requested_hours form in
  ∃ row, out.1 = RedirectView token
    ∧ db out.2 !! token = Some row
    ∧ created_at row = t_created
    ∧ (hours = 0 → expires_at row = None)
    ∧ (0 < hours →
         expires_at row = Some (t_expiry + timedelta_hours (Z.min hours 168)))
    ∧ (168 < hours → expires_at row = Some (t_expiry + timedelta_hours 168))
    ∧ (0 < hours → t_expiry = t_created →
         expires_at row = Some (created_at row + timedelta_hours (Z.min hours 168))).
Proof.
  intros Hf Hname Hfree out hours.
  destruct (upload_stored_lookup form token filename body t_expiry t_created w
              Hf Hname Hfree) as (Hresp & Hrow & _).
  exists (upload_row form token filename body t_expiry t_created).
  split; [done|]. split; [done|]. split; [done|].
  cbn [upload_row expires_at created_at]. fold hours. unfold wants_expiry.
  change (24 * 7) with 168.
  repeat split.
  - intros ->. done.
  - intros Hpos. destruct (Z.eqb_spec hours 0); [lia|].
    destruct (Z.ltb_spec 0 hours); [done|lia].
  - intros Hbig. destruct (Z.eqb_spec hours 0); [lia|].
    destruct (Z.ltb_spec 0 hours); [|lia]. cbn [negb andb].
    by rewrite Z.min_r by lia.
  - intros Hpos ->. destruct (Z.eqb_spec hours 0); [lia|].
    destruct (Z.ltb_spec 0 hours); [done|lia].
Qed.

(** C9. An upload whose [expires] value is negative, or is not truthy
    (that is, 0), goes through like any other and stores [expires_at] NULL.
    (A field that is absent, or that [int()] rejects, reads as the default
    24, which is truthy: see [upload_default_hours].) *)
Theorem upload_negative_hours_never_expires form token filename body t_expiry t_created w :
  file_field form = Some (filename, body) → filename ≠ "" → db w !! token = None →
  requested_hours form < 0 ∨ requested_hours form = 0 →
  let out := upload form token SaveOk t_expiry t_created w in
  ∃ row, out.1 = RedirectView token
    ∧ db out.2 !! token = Some row
    ∧ expires_at row = None
    ∧ downloads row = 0
    ∧ files out.2 !! stored_name row = Some body.
Proof.
  intros Hf Hname Hfree Hneg out.
  destruct (upload_stored_lookup form token filename body t_expiry t_created w
              Hf Hname Hfree) as (Hresp & Hrow & Hfile).
  exists (upload_row form token filename body t_expiry t_created).
  split; [done|]. split; [done|]. split; [|done].
  cbn [upload_row expires_at]. unfold wants_expiry.
  destruct (Z.eqb_spec (requested_hours form) 0); [done|].
  destruct (Z.ltb_spec 0 (requested_hours form)); [lia|done].
Qed.

(** X4. A form without the [expires] field, or with one that [int()]
    rejects, is stored with an expiry 24 hours after the clock reading. *)
Lemma upload_default_hours form token filename body t_expiry t_created w :
  file_field form = Some (filename, body) → filename ≠ "" → db w !! token = None →
  expires_field form = FieldAbsent ∨ expires_field form = FieldInvalid →
  ∃ row, db (upload form token SaveOk t_expiry t_created w).2 !! token = Some row
    ∧ expires_at row = Some (t_expiry + timedelta_hours 24).
Proof.
  intros Hf Hname Hfree Hfield.
  destruct (upload_stored_lookup form token filename body t_expiry t_created w
              Hf Hname Hfree) as (_ & Hrow & _).
  eexists. split; [done|]. cbn [upload_row expires_at]. unfold requested_hours.
  by destruct Hfield as [-> | ->].
Qed.

(** ** Order of the file write and the insert *)

(** C7. Whatever an upload does, the events it adds to the trace are either
    free of any insert, and then the table is as before, or they are the
    completed write of the whole body under the stored name followed by the
    insert of the row, whose size is that of the body. When the write fails
    the table is unchanged, no insert is attempted, and the request that
    carried a file ends in an internal error. *)
Theorem upload_row_only_after_file form token saved t_expiry t_created w :
  let out := upload form token saved t_expiry t_created w in
  ∃ new, trace out.2 = trace w ++ new
    ∧ ((db out.2 = db w ∧ ∀ k, EvInsert k ∉ new)
       ∨ ∃ filename body,
           saved = SaveOk
           ∧ file_field form = Some (filename, body)
           ∧ new = [EvFileWrite (upload_stored_name token filename) body;
                    EvInsert token]
           ∧ files out.2 !! upload_stored_name token filename = Some body
           ∧ db out.2 = <[token := upload_row form token filename body
                                              t_expiry t_created]> (db w)
           ∧ size_bytes (upload_row form token filename body t_expiry t_created)
               = Z.of_nat (length body))
    ∧ (∀ partial, saved = SaveFailed partial →
         db out.2 = db w
         ∧ (∀ k, EvInsert k ∉ new)
         ∧ (∀ filename body, file_field form = Some (filename, body) →
              filename ≠ "" → out.1 = InternalError)).
Proof.
  intros out. subst out.
  destruct (upload_outcome form token saved t_expiry t_created w)
    as [Hnone|filename body partial Hf Hname ->
        |filename body old Hf Hname -> Hold|filename body Hf Hname -> Hfree];
    cbn [fst snd].
  - exists []. rewrite app_nil_r. split; [done|]. split.
    + left. split; [done|]. intros k Hk. by apply elem_of_nil in Hk.
    + intros partial _. split; [done|]. split.
      * intros k Hk. by apply elem_of_nil in Hk.
      * intros filename body Hf Hname.
        destruct Hnone as [?|[? ?]]; congruence.
  - exists [EvFileWriteFailed (upload_stored_name token filename)].
    split; [done|].
    assert (∀ k, EvInsert k ∉ [EvFileWriteFailed (upload_stored_name token filename)])
      as Hno.
    { intros k Hk. apply list_elem_of_singleton in Hk. discriminate. }
    split; [by left|]. by intros ? _.
  - exists [EvFileWrite (upload_stored_name token filename) body].
    split; [done|]. split; [|by intros ? [=]].
    left. split; [done|]. intros k Hk. apply list_elem_of_singleton in Hk.
    discriminate.
  - exists [EvFileWrite (upload_stored_name token filename) body; EvInsert token].
    split; [simpl; by rewrite <- app_assoc|]. split; [|by intros ? [=]].
    right. exists filename, body. simpl. by rewrite lookup_insert_eq.
Qed.

(** ** The recent list *)

Lemma sorted_rows_perm w :
  merge_sort newer_first (map_to_list (db w)) ≡ₚ map_to_list (db w).
Proof. apply merge_sort_Permutation. Qed.

(** C8. [recent] leaves the world (table, directory and trace) as it was;
    what it lists is at most 20 rows of the table, each once, newest
    [created_at] first, and every row left out is no newer than every row
    listed; there is no clock reading and no expiry test in it: with at most
    20 rows in the table every row is listed, whatever its [expires_at]. *)
Theorem recent_newest_20 w :
  (recent w).2 = w
  ∧ (recent w).1 =
      RecentPage (map (λ r : SqlRow, (r.1, original_name r.2, size_bytes r.2))
                      (select_recent w))
  ∧ (length (select_recent w) ≤ 20)%nat
  ∧ length (select_recent w) = (20 `min` size (db w))%nat
  ∧ StronglySorted newer_first (select_recent w)
  ∧ NoDup (select_recent w).*1
  ∧ (∀ r : SqlRow, r ∈ select_recent w → db w !! r.1 = Some r.2)
  ∧ (∀ fid row, db w !! fid = Some row → (fid, row) ∉ select_recent w →
       ∀ r : SqlRow, r ∈ select_recent w → created_at row ≤ created_at r.2)
  ∧ ((size (db w) ≤ 20)%nat →
       ∀ fid row, db w !! fid = Some row → (fid, row) ∈ select_recent w).
Proof.
  unfold select_recent. set (sorted := merge_sort newer_first (map_to_list (db w))).
  assert (sorted ≡ₚ map_to_list (db w)) as Hperm by apply sorted_rows_perm.
  assert (StronglySorted newer_first sorted) as Hsorted
    by (apply StronglySorted_merge_sort; apply _).
  assert (length sorted = size (db w)) as Hlen
    by (by rewrite Hperm, length_map_to_list).
  split; [done|]. split; [done|]. split; [rewrite length_take; lia|].
  split; [rewrite length_take; lia|]. split.
  { rewrite <- (take_drop 20 sorted) in Hsorted.
    by apply StronglySorted_app_1_l in Hsorted. }
  split.
  { apply (sublist_NoDup _ (sorted.*1)); [|by apply fmap_sublist, sublist_take].
    rewrite Hperm. apply NoDup_fst_map_to_list. }
  split.
  { intros [k r] Hin. apply elem_of_map_to_list. rewrite <- Hperm.
    eapply elem_of_sublist; [done | apply sublist_take]. }
  split.
  { intros fid row Hrow Hout r Hr.
    assert ((fid, row) ∈ drop 20 sorted) as Hdrop.
    { apply elem_of_map_to_list in Hrow. rewrite <- Hperm in Hrow.
      rewrite <- (take_drop 20 sorted) in Hrow.
      apply elem_of_app in Hrow as [?|?]; done. }
    rewrite <- (take_drop 20 sorted) in Hsorted.
    exact (StronglySorted_app_1_elem_of _ _ _ _ _ Hsorted Hr Hdrop). }
  intros Hsmall fid row Hrow. rewrite take_ge by lia.
  rewrite Hperm. by apply elem_of_map_to_list.
Qed.

(** ** An absent key stays absent unless an upload draws it again *)

Lemma step_db_absent op w fid :
  db w !! fid = None → op_token op ≠ Some fid →
  db (step op w).2 !! fid = None.
Proof.
  intros Hn Htok.
  destruct op as [form token saved t1 t2|fid' now|fid' now|resp|]; cbn [step snd].
  - unfold upload. destruct (file_field form) as [[filename body]|]; [|done].
    case_decide; [done|]. destruct saved as [|partial]; [|done]. cbn zeta.
    destruct (db (fs_write _ _ w) !! token) eqn:E; cbn [snd]; [done|].
    simpl. rewrite lookup_insert_ne; [done|]. intros ->. by apply Htok.
  - unfold view_file. destruct (db w !! fid') as [row|] eqn:E; [|done].
    destruct (is_expired now row); cbn [snd]; [|done].
    rewrite delete_file_record_db, lookup_delete_None. by right.
  - unfold download. destruct (db w !! fid') as [row|] eqn:E; [|done].
    destruct (is_expired now row); cbn [snd].
    + rewrite delete_file_record_db, lookup_delete_None. by right.
    + destruct (files w !! stored_name row); cbn [snd]; simpl.
      * by rewrite lookup_alter_None.
      * rewrite lookup_delete_None. by right.
  - by apply close_response_db_None.
  - done.
Qed.

Lemma run_db_absent ops w fid :
  db w !! fid = None → Forall (λ op, op_token op ≠ Some fid) ops →
  db (run ops w) !! fid = None.
Proof.
  revert w. induction ops as [|op ops IH]; intros w Hn Hops; cbn [run]; [done|].
  inversion Hops; subst. apply IH; [|done]. by apply step_db_absent.
Qed.

Lemma step_files_absent op w name :
  files w !! name = None → op_writes op ≠ Some name →
  files (step op w).2 !! name = None.
Proof.
  intros Hn Hwr.
  destruct op as [form token saved t1 t2|fid' now|fid' now|resp|]; cbn [step snd].
  - unfold upload. cbn [op_writes] in Hwr.
    destruct (file_field form) as [[filename body]|]; [|done].
    assert (token +:+ splitext_ext (secure_filename filename) ≠ name) as Hne.
    { intros <-. by apply Hwr. }
    case_decide; [done|]. destruct saved as [|partial]; cbn zeta.
    + destruct (db (fs_write _ _ w) !! token); cbn [snd]; simpl;
        by rewrite lookup_insert_ne.
    + destruct partial; cbn [snd]; simpl; [by rewrite lookup_insert_ne|done].
  - unfold view_file. destruct (db w !! fid') as [row|]; [|done].
    destruct (is_expired now row); cbn [snd]; [|done].
    rewrite delete_file_record_files, lookup_delete_None. by right.
  - unfold download. destruct (db w !! fid') as [row|]; [|done].
    destruct (is_expired now row); cbn [snd].
    + rewrite delete_file_record_files, lookup_delete_None. by right.
    + destruct (files w !! stored_name row); done.
  - by apply close_response_files_None.
  - done.
Qed.

Lemma run_files_absent ops w name :
  files w !! name = None → Forall (λ op, op_writes op ≠ Some name) ops →
  files (run ops w) !! name = None.
Proof.
  revert w. induction ops as [|op ops IH]; intros w Hn Hops; cbn [run]; [done|].
  inversion Hops; subst. apply IH; [|done]. by apply step_files_absent.
Qed.

(** ** The download counter *)

Lemma served_download fid fid' now w :
  served fid (OpDownload fid' now) w = true ↔
  fid' = fid ∧ ∃ row content,
    db w !! fid = Some row ∧ is_expired now row = false
    ∧ files w !! stored_name row = Some content.
Proof.
  cbn [served]. rewrite andb_true_iff, bool_decide_eq_true. unfold download.
  split.
  - intros [-> H]. split; [done|].
    destruct (db w !! fid) as [row|]; [|done].
    destruct (is_expired now row) eqn:Hex; [done|].
    destruct (files w !! stored_name row) as [content|] eqn:Hf; [|done]. eauto.
  - intros [-> (row & content & -> & -> & ->)]. done.
Qed.

Lemma step_row op w fid r r' :
  db w !! fid = Some r → db (step op w).2 !! fid = Some r' →
  r' = if served fid op w then incr_downloads r else r.
Proof.
  intros Hr Hr'.
  destruct op as [form token saved t1 t2|fid' now|fid' now|resp|];
    cbn [step snd] in Hr'.
  - cbn [served].
    destruct (upload_outcome form token saved t1 t2 w); cbn [snd] in Hr';
      simpl in Hr'; try congruence.
    destruct (decide (token = fid)) as [->|Hne]; [congruence|].
    rewrite lookup_insert_ne in Hr' by done. congruence.
  - cbn [served]. unfold view_file in Hr'.
    destruct (db w !! fid') as [row|]; [|cbn [snd] in Hr'; congruence].
    destruct (is_expired now row); cbn [snd] in Hr'; [|congruence].
    rewrite delete_file_record_db in Hr'. apply lookup_delete_Some in Hr'.
    destruct Hr'. congruence.
  - destruct (served fid (OpDownload fid' now) w) eqn:S.
    + apply served_download in S as [-> (row & content & Hrow & Hex & Hf)].
      unfold download in Hr'. rewrite Hrow, Hex, Hf in Hr'. cbn [snd] in Hr'.
      simpl in Hr'. rewrite lookup_alter_eq, Hrow in Hr'. simpl in Hr'. congruence.
    + unfold download in Hr'.
      destruct (db w !! fid') as [row|] eqn:Hrow; [|cbn [snd] in Hr'; congruence].
      destruct (is_expired now row) eqn:Hex; cbn [snd] in Hr'.
      { rewrite delete_file_record_db in Hr'. apply lookup_delete_Some in Hr'.
        destruct Hr'. congruence. }
      destruct (files w !! stored_name row) as [content|] eqn:Hf;
        cbn [snd] in Hr'; simpl in Hr'.
      * destruct (decide (fid' = fid)) as [->|Hne].
        { assert (served fid (OpDownload fid now) w = true) as S'; [|congruence].
          apply served_download. split; [done|]. eauto. }
        rewrite lookup_alter_ne in Hr' by done. congruence.
      * apply lookup_delete_Some in Hr'. destruct Hr'. congruence.
  - cbn [served].
    destruct resp as [| | | ? ? ? ? [row|] | | |]; cbn [close_response] in Hr';
      try congruence.
    rewrite delete_file_record_db in Hr'. apply lookup_delete_Some in Hr'.
    destruct Hr'. congruence.
  - cbn [served]. simpl in Hr'. congruence.
Qed.

(** C6. Across any single operation, a record that is present before and
    after keeps all its columns except [downloads]; the counter never
    decreases, and it grows, by exactly one, exactly when the operation is a
    download of that record that was answered with the file. *)
Theorem downloads_monotone op w fid r r' :
  db w !! fid = Some r → db (step op w).2 !! fid = Some r' →
  downloads r ≤ downloads r'
  ∧ downloads r' = downloads r + (if served fid op w then 1 else 0)
  ∧ (downloads r' ≠ downloads r ↔
       ∃ now row content, op = OpDownload fid now
         ∧ (step op w).1 = SendFile (stored_name row) content (original_name row)
                                    (mime_or_default (mime row))
                                    (if one_time row then Some (fid, row) else None))
  ∧ r' = (if served fid op w then incr_downloads r else r).
Proof.
  intros Hr Hr'. pose proof (step_row op w fid r r' Hr Hr') as ->.
  destruct (served fid op w) eqn:S; cbn [incr_downloads downloads].
  - split; [lia|]. split; [lia|]. split; [|done]. split; [|lia].
    intros _. destruct op as [| |fid' now| |]; try discriminate S.
    apply served_download in S as [-> (row & content & Hrow & Hex & Hf)].
    exists now, row, content. split; [done|].
    cbn [step fst]. unfold download. by rewrite Hrow, Hex, Hf.
  - split; [lia|]. split; [lia|]. split; [|done]. split; [lia|].
    intros (now & row & content & -> & Hresp).
    cbn [served] in S. rewrite bool_decide_eq_true_2 in S by done.
    cbn [step] in Hresp. rewrite Hresp in S. discriminate.
Qed.

(** X9. Along a sequence of operations none of which draws the key again, the
    counter of a surviving record has grown by the number of served
    downloads of it. *)
Lemma downloads_run ops w fid r r' :
  db w !! fid = Some r → db (run ops w) !! fid = Some r' →
  Forall (λ op, op_token op ≠ Some fid) ops →
  downloads r' = downloads r + count_served fid ops w.
Proof.
  revert w r. induction ops as [|op ops IH]; intros w r Hr Hr' Hops;
    cbn [run count_served] in *.
  - assert (r' = r) by congruence. subst. lia.
  - inversion Hops; subst.
    destruct (db (step op w).2 !! fid) as [r1|] eqn:E.
    + pose proof (step_row op w fid r r1 Hr E) as ->.
      rewrite (IH _ _ E Hr') by done.
      destruct (served fid op w); cbn [incr_downloads downloads]; lia.
    + rewrite run_db_absent in Hr' by done. discriminate.
Qed.

(** ** One-time downloads *)

(** What the registered cleanup does once [Response.close()] is called.
    A one-time record that has not been downloaded yet, is not past its
    expiry and has its file: the download is answered with the file and
    brings the counter to 1; if the response object is then closed
    (directly, or after any other requests have run in between) the row and
    the file are gone; from then on, as long as no upload draws the same key
    again, viewing and downloading that key both answer 404, and as long as
    no upload writes the same file name, the file stays absent. *)
Lemma cleanup_on_response_close fid row content now w :
  db w !! fid = Some row → one_time row = true → downloads row = 0 →
  is_expired now row = false → files w !! stored_name row = Some content →
  let resp := SendFile (stored_name row) content (original_name row)
                       (mime_or_default (mime row)) (Some (fid, row)) in
  (download fid now w).1 = resp
  ∧ (∃ r1, db (download fid now w).2 !! fid = Some r1 ∧ downloads r1 = 1)
  ∧ ∀ between,
      let w2 := close_response resp (run between (download fid now w).2) in
      db w2 !! fid = None
      ∧ files w2 !! stored_name row = None
      ∧ (∀ ops now', Forall (λ op, op_token op ≠ Some fid) ops →
           view_file fid now' (run ops w2) = (Abort 404, run ops w2)
           ∧ download fid now' (run ops w2) = (Abort 404, run ops w2))
      ∧ (∀ ops, Forall (λ op, op_writes op ≠ Some (stored_name row)) ops →
           files (run ops w2) !! stored_name row = None).
Proof.
  intros Hrow Hone Hzero Hex Hfile resp.
  assert (download fid now w = (resp, db_incr fid w)) as Hd.
  { unfold download, resp. by rewrite Hrow, Hex, Hfile, Hone. }
  rewrite Hd. cbn [fst snd]. split; [done|]. split.
  - exists (incr_downloads row). simpl. rewrite lookup_alter_eq, Hrow. simpl.
    split; [done|lia].
  - intros between.
    destruct (delete_file_record_gone fid row (run between (db_incr fid w)))
      as [Hdb Hfs].
    change (close_response resp (run between (db_incr fid w)))
      with (_delete_file_record (fid, row) (run between (db_incr fid w))).
    set (w2 := _delete_file_record _ _) in *.
    split; [done|]. split; [done|]. split.
    + intros ops now' Hops. pose proof (run_db_absent ops w2 fid Hdb Hops) as Ha.
      split; [by apply view_file_absent|by apply download_absent].
    + intros ops Hops. by apply run_files_absent.
Qed.

(** C1. The one-time cleanup is registered but not run. For a one-time
    record that is not past its expiry and has its file, the download is
    answered with the file, carries the cleanup and brings the counter from
    0 to 1; closing the response object would delete the row; but when the
    response has been sent over WSGI the row, now with counter 1, and the
    file are still there, and the next download of the same link is answered
    with the file again. *)
Theorem one_time_cleanup_not_run fid row content now now' w :
  db w !! fid = Some row → one_time row = true → downloads row = 0 →
  is_expired now row = false → is_expired now' row = false →
  files w !! stored_name row = Some content →
  let resp := SendFile (stored_name row) content (original_name row)
                       (mime_or_default (mime row)) (Some (fid, row)) in
  let w1 := wsgi_finish (download fid now w).1 (download fid now w).2 in
  (download fid now w).1 = resp
  ∧ db (close_response resp (download fid now w).2) !! fid = None
  ∧ (∃ r1, db w1 !! fid = Some r1 ∧ downloads r1 = 1 ∧ one_time r1 = true)
  ∧ files w1 !! stored_name row = Some content
  ∧ (view_file fid now' w1).1 = DetailPage fid (incr_downloads row) true
  ∧ (download fid now' w1).1 =
      SendFile (stored_name row) content (original_name row)
               (mime_or_default (mime row)) (Some (fid, incr_downloads row)).
Proof.
  intros Hrow Hone Hzero Hex Hex' Hfile. cbn zeta.
  assert (download fid now w =
            (SendFile (stored_name row) content (original_name row)
                      (mime_or_default (mime row)) (Some (fid, row)),
             db_incr fid w)) as ->.
  { unfold download. by rewrite Hrow, Hex, Hfile, Hone. }
  cbn [fst snd wsgi_finish].
  assert (db (db_incr fid w) !! fid = Some (incr_downloads row)) as Hrow1.
  { simpl. by rewrite lookup_alter_eq, Hrow. }
  split; [done|]. split.
  { cbn [close_response]. rewrite delete_file_record_db. apply lookup_delete_eq. }
  split.
  { exists (incr_downloads row). split; [done|].
    cbn [incr_downloads downloads one_time]. split; [lia|done]. }
  split; [done|].
  unfold view_file, download. rewrite Hrow1.
  change (is_expired now' (incr_downloads row)) with (is_expired now' row).
  rewrite Hex'. cbn [incr_downloads stored_name original_name mime one_time].
  change (files (db_incr fid w)) with (files w). by rewrite Hfile, Hone.
Qed.

(** ** Expiry *)

(** C3 (amended). Viewing a record whose [expires_at] is set and in the
    past deletes its file and its row and answers that caller with the
    detail page carrying the expiry notice and a disabled download button;
    it is the later callers that get 404, as long as no upload draws the
    same key again. *)
Theorem view_file_expired_purges fid row e now w :
  db w !! fid = Some row → expires_at row = Some e → e < now →
  let w' := (view_file fid now w).2 in
  (view_file fid now w).1 = DetailPage fid row false
  ∧ db w' !! fid = None
  ∧ files w' !! stored_name row = None
  ∧ (∀ ops now', Forall (λ op, op_token op ≠ Some fid) ops →
       view_file fid now' (run ops w') = (Abort 404, run ops w')
       ∧ download fid now' (run ops w') = (Abort 404, run ops w')).
Proof.
  intros Hrow He Hlt.
  assert (is_expired now row = true) as Hex by (apply is_expired_true; eauto).
  unfold view_file at 1 2. rewrite Hrow, Hex. cbn [fst snd]. cbn zeta.
  destruct (delete_file_record_gone fid row w) as [Hdb Hfs].
  split; [done|]. split; [done|]. split; [done|].
  intros ops now' Hops.
  pose proof (run_db_absent ops _ fid Hdb Hops) as Ha.
  split; [by apply view_file_absent|by apply download_absent].
Qed.

(** C10. At the very instant [expires_at] the record is not expired
    ([utcnow() > expires_at] is strict): viewing it changes nothing and
    offers the download, and downloading it is never answered 410, and is
    answered with the file whenever the file is there. One microsecond later
    the record is expired. *)
Theorem not_expired_at_deadline fid row now w :
  db w !! fid = Some row → expires_at row = Some now →
  is_expired now row = false
  ∧ is_expired (now + 1) row = true
  ∧ view_file fid now w = (DetailPage fid row true, w)
  ∧ (download fid now w).1 ≠ Abort 410
  ∧ (∀ content, files w !! stored_name row = Some content →
       download fid now w =
         (SendFile (stored_name row) content (original_name row)
                   (mime_or_default (mime row))
                   (if one_time row then Some (fid, row) else None),
          db_incr fid w)).
Proof.
  intros Hrow He.
  assert (is_expired now row = false) as Hex.
  { unfold is_expired. rewrite He. apply bool_decide_eq_false. lia. }
  split; [done|]. split.
  { unfold is_expired. rewrite He. apply bool_decide_eq_true. lia. }
  unfold view_file, download. rewrite Hrow, Hex. split; [done|]. split.
  - destruct (files w !! stored_name row); cbn [fst]; discriminate.
  - by intros content ->.
Qed.

(** ** Status codes of a download *)

(** C4 (amended). A download answers 404 exactly when there is no row, or
    the row is not expired and its file is missing; it answers 410 exactly
    when the row exists and is expired, whether or not the file is still
    there; the two answers differ. *)
Theorem download_status fid now w :
  ((download fid now w).1 = Abort 404 ↔
     db w !! fid = None
     ∨ ∃ row, db w !! fid = Some row ∧ is_expired now row = false
              ∧ files w !! stored_name row = None)
  ∧ ((download fid now w).1 = Abort 410 ↔
       ∃ row e, db w !! fid = Some row ∧ expires_at row = Some e ∧ e < now)
  ∧ Abort 404 ≠ Abort 410.
Proof.
  unfold download. destruct (db w !! fid) as [row|] eqn:Hrow.
  - destruct (is_expired now row) eqn:Hex.
    + cbn [fst]. split; [|split; [|discriminate]].
      * split; [discriminate|]. intros [?|(r & [= <-] & ? & _)]; congruence.
      * split; [|done]. intros _. apply is_expired_true in Hex as (e & ? & ?). eauto.
    + destruct (files w !! stored_name row) as [content|] eqn:Hf; cbn [fst];
        (split; [|split; [|discriminate]]).
      * split; [discriminate|]. intros [?|(r & [= <-] & _ & ?)]; congruence.
      * split; [discriminate|]. intros (r & e & [= <-] & He & Hlt).
        assert (is_expired now row = true) by (apply is_expired_true; eauto).
        congruence.
      * split; [|done]. intros _. right. eauto.
      * split; [discriminate|]. intros (r & e & [= <-] & He & Hlt).
        assert (is_expired now row = true) by (apply is_expired_true; eauto).
        congruence.
  - cbn [fst]. split; [|split; [|discriminate]].
    + split; [|done]. by left.
    + split; [discriminate|]. by intros (? & ? & ? & _).
Qed.

(** ** A row whose file is missing *)

(** C5 (amended). For a row whose file is absent from the directory, it is
    the download, not the view, that notices: it deletes the row, leaves the
    directory as it is, and answers 404, or 410 when the record is also
    expired; no other status is produced. Viewing an unexpired such record
    returns the detail page with the download offered and changes nothing. *)
Theorem missing_file_purged_on_download fid row now w :
  db w !! fid = Some row → files w !! stored_name row = None →
  (download fid now w).1 = (if is_expired now row then Abort 410 else Abort 404)
  ∧ db (download fid now w).2 !! fid = None
  ∧ files (download fid now w).2 = files w
  ∧ (is_expired now row = false →
       view_file fid now w = (DetailPage fid row true, w)).
Proof.
  intros Hrow Hf. unfold download, view_file. rewrite Hrow, Hf.
  destruct (is_expired now row); cbn [fst snd].
  - rewrite delete_file_record_db, delete_file_record_files. simpl.
    rewrite lookup_delete_eq, delete_id by done. done.
  - simpl. by rewrite lookup_delete_eq.
Qed.

(** * Further properties of the handlers *)

(** ** Uploads *)

(** X1. An upload leaves the world exactly as it was, and sends the browser
    back to the form with the flashed message, precisely when no file was
    selected (no [file] field, or an empty filename); every other upload
    writes under the stored name or fails while doing so. *)
Theorem upload_without_file form token saved t_expiry t_created w :
  let out := upload form token saved t_expiry t_created w in
  let no_file := file_field form = None ∨ ∃ body, file_field form = Some ("", body) in
  (out.2 = w ↔ no_file)
  ∧ (out.1 = RedirectIndex "No file selected." ↔ no_file)
  ∧ (trace out.2 = trace w ↔ no_file).
Proof.
  cbn zeta.
  assert (∀ (l : list Event) e, l ++ [e] ≠ l) as Hgrow.
  { intros l e H. apply (f_equal length) in H. rewrite length_app in H.
    simpl in H. lia. }
  assert (∀ (l : list Event) e e', (l ++ [e]) ++ [e'] ≠ l) as Hgrow2.
  { intros l e e' H. apply (f_equal length) in H. rewrite !length_app in H.
    simpl in H. lia. }
  destruct (upload_outcome form token saved t_expiry t_created w)
    as [Hnone|filename body partial Hf Hname ->
        |filename body old Hf Hname -> Hold|filename body Hf Hname -> Hfree];
    cbn [fst snd].
  - done.
  - assert (¬ (file_field form = None ∨ ∃ b, file_field form = Some ("", b))) as Hn.
    { intros [?|[? ?]]; congruence. }
    split; [|split]; (split; [|done]); intros H; exfalso.
    + apply (f_equal trace) in H. simpl in H. by apply Hgrow in H.
    + discriminate.
    + simpl in H. by apply Hgrow in H.
  - assert (¬ (file_field form = None ∨ ∃ b, file_field form = Some ("", b))) as Hn.
    { intros [?|[? ?]]; congruence. }
    split; [|split]; (split; [|done]); intros H; exfalso.
    + apply (f_equal trace) in H. simpl in H. by apply Hgrow in H.
    + discriminate.
    + simpl in H. by apply Hgrow in H.
  - assert (¬ (file_field form = None ∨ ∃ b, file_field form = Some ("", b))) as Hn.
    { intros [?|[? ?]]; congruence. }
    split; [|split]; (split; [|done]); intros H; exfalso.
    + apply (f_equal trace) in H. simpl in H. by apply Hgrow2 in H.
    + discriminate.
    + simpl in H. by apply Hgrow2 in H.
Qed.

(** X2. Round trip. After an upload that went through, and until the stored
    expiry has passed, viewing the new key shows the row just inserted (zero
    downloads, the sanitised name, the size of the body) without changing
    anything, and downloading it sends back exactly the uploaded bytes under
    the sanitised name. *)
Theorem upload_then_download form token filename body t_expiry t_created now w :
  file_field form = Some (filename, body) → filename ≠ "" → db w !! token = None →
  is_expired now (upload_row form token filename body t_expiry t_created) = false →
  let w1 := (upload form token SaveOk t_expiry t_created w).2 in
  let row := upload_row form token filename body t_expiry t_created in
  view_file token now w1 = (DetailPage token row true, w1)
  ∧ (download token now w1).1 =
      SendFile (upload_stored_name token filename) body (secure_filename filename)
               (mime_or_default (guess_type (secure_filename filename)))
               (if requested_one_time form then Some (token, row) else None)
  ∧ downloads row = 0
  ∧ size_bytes row = Z.of_nat (length body).
Proof.
  intros Hf Hname Hfree Hex. cbn zeta.
  destruct (upload_stored_lookup form token filename body t_expiry t_created w
              Hf Hname Hfree) as (_ & Hrow & Hfile).
  unfold view_file, download. rewrite Hrow, Hex.
  change (stored_name (upload_row form token filename body t_expiry t_created))
    with (upload_stored_name token filename).
  rewrite Hfile. done.
Qed.

(** X3. When the drawn token is already a key, the upload ends in an internal
    error and the table is unchanged, but the file has been written first:
    if the existing record has the same stored name (same extension), its
    file now holds the new body, and that is what a download of it sends. *)
Theorem upload_token_collision form token filename body old t_expiry t_created now w :
  file_field form = Some (filename, body) → filename ≠ "" →
  db w !! token = Some old →
  let out := upload form token SaveOk t_expiry t_created w in
  out.1 = InternalError
  ∧ db out.2 = db w
  ∧ files out.2 = <[upload_stored_name token filename := body]> (files w)
  ∧ (stored_name old = upload_stored_name token filename →
     is_expired now old = false →
     (download token now out.2).1 =
       SendFile (stored_name old) body (original_name old)
                (mime_or_default (mime old))
                (if one_time old then Some (token, old) else None)).
Proof.
  intros Hf Hname Hold. cbn zeta.
  destruct (upload_outcome form token SaveOk t_expiry t_created w)
    as [[?|[? ?]]|? ? ? ? ? [=]|filename' body' old' Hf' _ _ _
        |? ? ? ? ? ?]; try congruence.
  assert (filename' = filename ∧ body' = body) as [-> ->].
  { split; congruence. }
  cbn [fst snd]. split; [done|]. split; [done|]. split; [done|].
  intros Hsame Hex. unfold download. simpl. rewrite Hold, Hex, Hsame.
  by rewrite lookup_insert_eq.
Qed.

(** X5. Whatever hours are asked for, an expiry stored by an upload lies
    strictly after the clock reading it was computed from and at most one
    week (168 hours) after it, a whole number of hours away. *)
Theorem stored_expiry_within_week form token filename body t_expiry t_created e :
  expires_at (upload_row form token filename body t_expiry t_created) = Some e →
  t_expiry < e ≤ t_expiry + timedelta_hours 168
  ∧ ∃ h, 1 ≤ h ≤ 168 ∧ e = t_expiry + timedelta_hours h.
Proof.
  cbn [upload_row expires_at]. unfold wants_expiry, timedelta_hours.
  destruct (Z.eqb_spec (requested_hours form) 0); [done|].
  destruct (Z.ltb_spec 0 (requested_hours form)); [|done].
  cbn [negb andb]. intros [= <-]. change (24 * 7) with 168.
  split; [lia|]. exists (requested_hours form `min` 168). lia.
Qed.

(** ** Downloads *)

(** X6. 410 is answered once. The first download after the expiry answers 410
    and deletes the file and the row; every download or view that follows
    directly answers 404, whatever the time. *)
Theorem gone_only_once fid row e now w :
  db w !! fid = Some row → expires_at row = Some e → e < now →
  let w' := (download fid now w).2 in
  (download fid now w).1 = Abort 410
  ∧ db w' = delete fid (db w)
  ∧ files w' = delete (stored_name row) (files w)
  ∧ ∀ now', download fid now' w' = (Abort 404, w')
            ∧ view_file fid now' w' = (Abort 404, w').
Proof.
  intros Hrow He Hlt.
  assert (is_expired now row = true) as Hex by (apply is_expired_true; eauto).
  unfold download at 1 2. rewrite Hrow, Hex. cbn [fst snd]. cbn zeta.
  rewrite delete_file_record_db, delete_file_record_files. cbn [fst snd].
  split; [done|]. split; [done|]. split; [done|]. intros now'.
  assert (db (_delete_file_record (fid, row) w) !! fid = None) as Hgone.
  { rewrite delete_file_record_db. apply lookup_delete_eq. }
  split; [by apply download_absent|by apply view_file_absent].
Qed.


(** ** Cleanup *)

(** X12. [_delete_file_record] is idempotent on the table and the directory,
    and deleting a record whose row and file are both absent changes
    neither. *)
Theorem delete_file_record_idempotent row w :
  db (_delete_file_record row (_delete_file_record row w))
    = db (_delete_file_record row w)
  ∧ files (_delete_file_record row (_delete_file_record row w))
      = files (_delete_file_record row w)
  ∧ (db w !! row.1 = None → files w !! stored_name row.2 = None →
     db (_delete_file_record row w) = db w
     ∧ files (_delete_file_record row w) = files w).
Proof.
  rewrite !delete_file_record_db, !delete_file_record_files.
  split; [|split].
  - apply delete_id, lookup_delete_eq.
  - apply delete_id, lookup_delete_eq.
  - intros Hd Hf. split; by apply delete_id.
Qed.

(** ** Sequences of requests *)

Lemma iter_incr_columns n row :
  stored_name (Nat.iter n incr_downloads row) = stored_name row
  ∧ original_name (Nat.iter n incr_downloads row) = original_name row
  ∧ mime (Nat.iter n incr_downloads row) = mime row
  ∧ expires_at (Nat.iter n incr_downloads row) = expires_at row
  ∧ one_time (Nat.iter n incr_downloads row) = one_time row
  ∧ downloads (Nat.iter n incr_downloads row) = downloads row + Z.of_nat n.
Proof.
  induction n as [|n IH].
  - simpl. repeat split; lia.
  - destruct IH as (? & ? & ? & ? & ? & ?).
    change (Nat.iter (S n) incr_downloads row)
      with (incr_downloads (Nat.iter n incr_downloads row)).
    cbn [incr_downloads stored_name original_name mime expires_at one_time downloads].
    repeat split; try done. lia.
Qed.

(** X8. A standard (not one-time) record can be downloaded again and again:
    for any instants at which it is not expired, downloading it and closing
    the response at each of them serves every request, leaves the directory
    as it was, and leaves the row with its counter raised by the number of
    downloads. *)
Theorem standard_record_downloads fid row content times w :
  db w !! fid = Some row → one_time row = false →
  files w !! stored_name row = Some content →
  Forall (λ t, is_expired t row = false) times →
  let resp := SendFile (stored_name row) content (original_name row)
                       (mime_or_default (mime row)) None in
  let ops := download_and_close fid resp times in
  db (run ops w) !! fid = Some (Nat.iter (length times) incr_downloads row)
  ∧ files (run ops w) = files w
  ∧ count_served fid ops w = Z.of_nat (length times)
  ∧ (∀ t, is_expired t row = false → (download fid t (run ops w)).1 = resp).
Proof.
  intros Hrow Hone Hfile Htimes. cbn zeta.
  assert (∀ k w0 t,
            db w0 !! fid = Some (Nat.iter k incr_downloads row) →
            files w0 = files w → is_expired t row = false →
            download fid t w0 =
              (SendFile (stored_name row) content (original_name row)
                        (mime_or_default (mime row)) None,
               db_incr fid w0)) as Hserve.
  { intros k w0 t Hr Hf Hex. unfold download. rewrite Hr.
    destruct (iter_incr_columns k row) as (Hs & Ho & Hm & He & Ht & _).
    unfold is_expired in *. rewrite He, Hex, Hs, Hf, Hfile, Ho, Hm, Ht, Hone.
    done. }
  assert (∀ k w0,
            db w0 !! fid = Some (Nat.iter k incr_downloads row) →
            files w0 = files w →
            let ops := download_and_close fid
                         (SendFile (stored_name row) content (original_name row)
                                   (mime_or_default (mime row)) None) times in
            db (run ops w0) !! fid
              = Some (Nat.iter (length times + k) incr_downloads row)
            ∧ files (run ops w0) = files w
            ∧ count_served fid ops w0 = Z.of_nat (length times)) as Hgen.
  { induction Htimes as [|t times Ht _ IH]; intros k w0 Hr Hf; cbn zeta.
    - done.
    - cbn [download_and_close flat_map app run count_served step served
            close_response length snd fst].
      rewrite (Hserve k w0 t Hr Hf Ht). cbn [fst snd].
      rewrite bool_decide_eq_true_2 by done. cbn [andb].
      destruct (IH (S k) (db_incr fid w0)) as (Hdb & Hfs & Hcount).
      + simpl. by rewrite lookup_alter_eq, Hr.
      + done.
      + fold (download_and_close fid
                (SendFile (stored_name row) content (original_name row)
                          (mime_or_default (mime row)) None) times).
        rewrite Hdb, Hfs, Hcount.
        replace (length times + S k)%nat with (S (length times + k)) by lia.
        split; [done|]. split; [done|]. lia. }
  destruct (Hgen 0%nat w Hrow eq_refl) as (Hdb & Hfs & Hcount).
  rewrite Nat.add_0_r in Hdb. split; [done|]. split; [done|]. split; [done|].
  intros t Hex. by rewrite (Hserve _ _ t Hdb Hfs Hex).
Qed.


(** X10. Along any sequence of operations that does not draw its key again, a
    record that is there at the end has the columns it started with, apart
    from the counter: name, size, type, creation time, expiry and mode are
    never rewritten. *)
Theorem row_columns_immutable ops w fid r r' :
  db w !! fid = Some r → db (run ops w) !! fid = Some r' →
  Forall (λ op, op_token op ≠ Some fid) ops →
  stored_name r' = stored_name r
  ∧ original_name r' = original_name r
  ∧ size_bytes r' = size_bytes r
  ∧ mime r' = mime r
  ∧ created_at r' = created_at r
  ∧ expires_at r' = expires_at r
  ∧ one_time r' = one_time r
  ∧ downloads r ≤ downloads r'.
Proof.
  revert w r. induction ops as [|op ops IH]; intros w r Hr Hr' Hops;
    cbn [run] in *.
  - assert (r' = r) as -> by congruence. repeat split; lia.
  - inversion Hops; subst.
    destruct (db (step op w).2 !! fid) as [r1|] eqn:E.
    + pose proof (step_row op w fid r r1 Hr E) as ->.
      destruct (IH _ _ E Hr') as (? & ? & ? & ? & ? & ? & ? & ?); [done|].
      destruct (served fid op w);
        cbn [incr_downloads stored_name original_name size_bytes mime
             created_at expires_at one_time downloads] in *;
        repeat split; try done; lia.
    + rewrite run_db_absent in Hr' by done. discriminate.
Qed.

(** ** Upload and the recent list *)

(** X14. A record uploaded with a creation time later than that of every row
    already in the table is the first entry of the recent list. *)
Theorem recent_shows_new_upload_first form token filename body t_expiry t_created w :
  file_field form = Some (filename, body) → filename ≠ "" → db w !! token = None →
  (∀ fid row, db w !! fid = Some row → created_at row < t_created) →
  let w1 := (upload form token SaveOk t_expiry t_created w).2 in
  ∃ rest,
    select_recent w1
      = (token, upload_row form token filename body t_expiry t_created) :: rest
    ∧ (recent w1).1 =
        RecentPage ((token, secure_filename filename, Z.of_nat (length body))
                      :: map (λ r : SqlRow, (r.1, original_name r.2, size_bytes r.2))
                             rest).
Proof.
  intros Hf Hname Hfree Hnewest. cbn zeta.
  rewrite (upload_stored _ _ _ _ _ _ _ Hf Hname Hfree). cbn [snd].
  set (row := upload_row form token filename body t_expiry t_created).
  set (w1 := db_insert token row _).
  assert (db w1 = <[token := row]> (db w)) as Hdb by done.
  unfold recent, select_recent. cbn [fst].
  set (sorted := merge_sort newer_first (map_to_list (db w1))).
  assert (sorted ≡ₚ map_to_list (db w1)) as Hperm by apply merge_sort_Permutation.
  assert (StronglySorted newer_first sorted) as Hsorted
    by (apply StronglySorted_merge_sort; apply _).
  assert ((token, row) ∈ sorted) as Hin.
  { rewrite Hperm. apply elem_of_map_to_list. rewrite Hdb. apply lookup_insert_eq. }
  destruct sorted as [|[k r] tail] eqn:Hs; [by apply elem_of_nil in Hin|].
  assert ((k, r) = (token, row)) as [= -> ->].
  { apply elem_of_cons in Hin as [Hin|Hin]; [done|].
    apply StronglySorted_inv in Hsorted as [_ Hall].
    rewrite Forall_forall in Hall. specialize (Hall _ Hin).
    unfold newer_first in Hall. cbn [snd] in Hall.
    assert ((k, r) ∈ map_to_list (db w1)) as Hk.
    { rewrite <- Hperm. apply elem_of_cons. by left. }
    apply elem_of_map_to_list in Hk. rewrite Hdb in Hk.
    destruct (decide (token = k)) as [<-|Hne].
    - rewrite lookup_insert_eq in Hk. congruence.
    - rewrite lookup_insert_ne in Hk by done.
      specialize (Hnewest _ _ Hk). change (created_at row) with t_created in Hall.
      lia. }
  exists (take 19 tail). done.
Qed.

(** ** Rows and their files *)

Lemma append_same_length_prefix (a b x y : string) :
  a +:+ x = b +:+ y → String.length a = String.length b → a = b.
Proof.
  revert b. induction a as [|c a IH]; intros [|d b] Heq Hlen; simpl in *;
    try done.
  injection Heq as -> Heq. f_equal. apply IH; [done|lia].
Qed.

Lemma named_after_distinct n fid1 row1 fid2 row2 :
  named_after n fid1 row1 → named_after n fid2 row2 → fid1 ≠ fid2 →
  stored_name row1 ≠ stored_name row2.
Proof.
  intros [Hl1 [e1 H1]] [Hl2 [e2 H2]] Hne Heq. apply Hne.
  rewrite H1, H2 in Heq. apply (append_same_length_prefix _ _ _ _ Heq). congruence.
Qed.

Lemma delete_file_record_keeps_files n fid row w :
  named_after n fid row → rows_have_files n w →
  rows_have_files n (_delete_file_record (fid, row) w).
Proof.
  intros Hnamed Hinv k r. rewrite delete_file_record_db, delete_file_record_files.
  cbn [fst snd]. intros [Hne Hr]%lookup_delete_Some.
  destruct (Hinv k r Hr) as [Hn Hfile]. split; [done|].
  rewrite lookup_delete_ne; [done|].
  by apply (named_after_distinct n fid row k r).
Qed.

Lemma step_keeps_files n op w (seen : list Response) :
  rows_have_files n w →
  (∀ resp fid row, resp ∈ seen → cleanup_row resp = Some (fid, row) →
     named_after n fid row) →
  match op with
  | OpUpload _ token _ _ _ => String.length token = n
  | OpClose resp => resp ∈ seen
  | _ => True
  end →
  rows_have_files n (step op w).2
  ∧ (∀ fid row, cleanup_row (step op w).1 = Some (fid, row) → named_after n fid row).
Proof.
  intros Hinv Hseen Hop.
  assert (∀ name (c : bytes) k r, db w !! k = Some r →
            named_after n k r ∧ is_Some (<[name := c]> (files w) !! stored_name r))
    as Hwrite.
  { intros name c k r Hr. destruct (Hinv k r Hr) as [Hn Hf]. split; [done|].
    rewrite lookup_insert_is_Some. destruct (decide (name = stored_name r)); auto. }
  destruct op as [form token saved t1 t2|fid' now|fid' now|resp|];
    cbn [step snd fst].
  - destruct (upload_outcome form token saved t1 t2 w)
      as [?|filename body partial ? ? ?|filename body old ? ? ? ?
          |filename body ? ? ? Hfree]; cbn [fst snd cleanup_row].
    + split; [done|]. by intros.
    + split; [|by intros]. intros k r Hr. simpl in Hr |- *.
      destruct partial; [by apply Hwrite|by apply Hinv].
    + split; [|by intros]. intros k r Hr. simpl in Hr |- *. by apply Hwrite.
    + split; [|by intros]. intros k r Hr. simpl in Hr |- *.
      destruct (decide (token = k)) as [<-|Hne].
      * rewrite lookup_insert_eq in Hr. injection Hr as <-.
        split; [split; [done|by eexists]|].
        cbn [upload_row stored_name]. rewrite lookup_insert_eq. by eexists.
      * rewrite lookup_insert_ne in Hr by done. by apply Hwrite.
  - unfold view_file. destruct (db w !! fid') as [row|] eqn:Hrow;
      cbn [fst snd cleanup_row]; [|split; [done|by intros]].
    destruct (is_expired now row); cbn [fst snd cleanup_row];
      (split; [|by intros]); [|done].
    apply (delete_file_record_keeps_files n); [|done]. by apply Hinv.
  - unfold download. destruct (db w !! fid') as [row|] eqn:Hrow;
      cbn [fst snd cleanup_row]; [|split; [done|by intros]].
    destruct (is_expired now row); cbn [fst snd cleanup_row].
    { split; [|by intros].
      apply (delete_file_record_keeps_files n); [|done]. by apply Hinv. }
    destruct (files w !! stored_name row) as [content|] eqn:Hf;
      cbn [fst snd cleanup_row].
    + split.
      * intros k r Hr. simpl in Hr |- *.
        destruct (decide (fid' = k)) as [<-|Hne].
        -- rewrite lookup_alter_eq, Hrow in Hr. injection Hr as <-.
           destruct (Hinv fid' row Hrow) as [[Hl [ext He]] Hfile].
           split; [split; [done|by exists ext]|done].
        -- rewrite lookup_alter_ne in Hr by done. by apply Hinv.
      * intros k r Hc. destruct (one_time row); [|done].
        injection Hc as <- <-. by apply Hinv.
    + split; [|by intros]. intros k r Hr. simpl in Hr |- *.
      apply lookup_delete_Some in Hr as [_ Hr]. by apply Hinv.
  - split; [|intros k r Hc; by apply (Hseen resp)].
    destruct (cleanup_row resp) as [[k r]|] eqn:Hc.
    + destruct resp as [| | | ? ? ? ? c | | |]; try discriminate Hc.
      cbn [cleanup_row] in Hc. subst c. cbn [close_response].
      apply (delete_file_record_keeps_files n); [|done].
      by apply (Hseen _ k r Hop).
    + destruct resp as [| | | ? ? ? ? c | | |]; try done.
      cbn [cleanup_row] in Hc. by subst c.
  - split; [done|]. by intros.
Qed.

(** X13. No row without its file. Starting from the empty table and directory,
    after any sequence of requests in which the tokens all have the same
    length and only responses that were really returned are closed, every
    row has its file in the directory under [key ++ extension]; so in such a
    world a download of a record that is not expired is always answered with
    the file, never with the 404 of a missing file. *)
Theorem no_row_without_file n ops :
  genuine n [] ops empty_world →
  let w := run ops empty_world in
  rows_have_files n w
  ∧ ∀ fid row now, db w !! fid = Some row → is_expired now row = false →
      ∃ content,
        files w !! stored_name row = Some content
        ∧ (download fid now w).1 =
            SendFile (stored_name row) content (original_name row)
                     (mime_or_default (mime row))
                     (if one_time row then Some (fid, row) else None).
Proof.
  intros Hgen. cbn zeta.
  assert (rows_have_files n (run ops empty_world)) as Hinv.
  { assert (rows_have_files n empty_world) as H0.
    { intros k r Hr. simpl in Hr. by rewrite lookup_empty in Hr. }
    assert (∀ resp fid row, resp ∈ ([] : list Response) →
              cleanup_row resp = Some (fid, row) → named_after n fid row) as Hs0.
    { intros ? ? ? H. by apply elem_of_nil in H. }
    revert Hgen H0 Hs0. generalize empty_world ([] : list Response).
    induction ops as [|op ops IH]; intros w seen Hgen Hinv Hseen; [done|].
    cbn [genuine run] in *. destruct Hgen as [Hop Hgen].
    destruct (step_keeps_files n op w seen Hinv Hseen Hop) as [Hinv' Hresp].
    apply (IH _ _ Hgen Hinv').
    intros resp fid row [->|Hin]%elem_of_cons Hc; [by apply Hresp|].
    by apply (Hseen resp). }
  split; [done|]. intros fid row now Hrow Hex.
  destruct (Hinv fid row Hrow) as [_ [content Hfile]].
  exists content. split; [done|]. unfold download. by rewrite Hrow, Hex, Hfile.
Qed.

(** ** Sizes for display *)

Lemma human_size_loop_stops fuel f i :
  (length units - 1 ≤ i)%nat → human_size_loop fuel f i = (f, i).
Proof.
  intros H. destruct fuel; [done|]. simpl human_size_loop.
  rewrite bool_decide_eq_false_2 by (simpl in *; lia). by rewrite andb_false_r.
Qed.

Lemma human_size_loop_fuel fuel f i :
  (length units - 1 ≤ fuel + i)%nat →
  human_size_loop (S fuel) f i = human_size_loop fuel f i.
Proof.
  revert f i. induction fuel as [|fuel IH]; intros f i H.
  - rewrite (human_size_loop_stops 1 f i) by lia. done.
  - change (human_size_loop (S (S fuel)) f i) with
      (if Qle_bool (inject_Z 1024) f && bool_decide (i < length units - 1)%nat
       then human_size_loop (S fuel) (f / inject_Z 1024)%Q (i + 1)
       else (f, i)).
    rewrite IH by lia. done.
Qed.

Lemma Qle_inject_div a n p :
  0 < p → (inject_Z a <= inject_Z n / inject_Z p)%Q ↔ a * p ≤ n.
Proof.
  intros Hp. destruct p as [|p|p]; try lia.
  unfold Qle, Qdiv, Qmult, Qinv, inject_Z. simpl. lia.
Qed.

Lemma Qdiv_inject_1024 n i :
  (inject_Z n / inject_Z (1024 ^ Z.of_nat i) / inject_Z 1024
   == inject_Z n / inject_Z (1024 ^ Z.of_nat (i + 1)))%Q.
Proof.
  replace (Z.of_nat (i + 1)) with (Z.of_nat i + 1) by lia.
  rewrite Z.pow_add_r by lia. change (1024 ^ 1) with 1024.
  assert (0 < 1024 ^ Z.of_nat i) as Hpos by (apply Z.pow_pos_nonneg; lia).
  destruct (1024 ^ Z.of_nat i) as [|p|p]; try lia.
  unfold Qeq, Qdiv, Qmult, Qinv, inject_Z. simpl. lia.
Qed.

Lemma human_size_loop_spec n fuel : ∀ i f,
  (f == inject_Z n / inject_Z (1024 ^ Z.of_nat i))%Q →
  (i = 0%nat ∨ 1024 ^ Z.of_nat i ≤ n) →
  (length units - 1 ≤ fuel + i)%nat → (i ≤ length units - 1)%nat →
  let r := human_size_loop fuel f i in
  (i ≤ r.2 ≤ length units - 1)%nat
  ∧ (r.1 == inject_Z n / inject_Z (1024 ^ Z.of_nat r.2))%Q
  ∧ (r.2 = 0%nat ∨ 1024 ^ Z.of_nat r.2 ≤ n)
  ∧ (r.2 = (length units - 1)%nat ∨ n < 1024 ^ (Z.of_nat r.2 + 1)).
Proof.
  induction fuel as [|fuel IH]; intros i f Hf Hlow Hfuel Hi; cbn zeta;
    change (length units - 1)%nat with 4%nat in *.
  - cbn [human_size_loop fst snd]. split; [lia|]. split; [done|]. split; [done|].
    left. lia.
  - cbn [human_size_loop].
    assert (0 < 1024 ^ Z.of_nat i) as Hpos by (apply Z.pow_pos_nonneg; lia).
    change (length units - 1)%nat with 4%nat.
    destruct (Qle_bool (inject_Z 1024) f) eqn:Hle.
    + destruct (decide (i < 4)%nat) as [Hlt|Hge].
      * rewrite bool_decide_eq_true_2 by done. cbn [andb].
        apply Qle_bool_iff in Hle. rewrite Hf in Hle.
        apply (proj1 (Qle_inject_div 1024 n _ Hpos)) in Hle.
        destruct (IH (i + 1)%nat (f / inject_Z 1024)%Q) as (H1 & H2 & H3 & H4).
        -- rewrite Hf. apply Qdiv_inject_1024.
        -- right. replace (Z.of_nat (i + 1)) with (Z.of_nat i + 1) by lia.
           rewrite Z.pow_add_r by lia. change (1024 ^ 1) with 1024. lia.
        -- lia.
        -- lia.
        -- split; [lia|]. done.
      * rewrite bool_decide_eq_false_2 by done. rewrite andb_false_r.
        cbn [fst snd]. split; [lia|]. split; [done|]. split; [done|]. left. lia.
    + cbn [andb fst snd]. split; [lia|]. split; [done|]. split; [done|].
      right. rewrite Z.pow_add_r by lia. change (1024 ^ 1) with 1024.
      destruct (Z_lt_dec n (1024 ^ Z.of_nat i * 1024)) as [|Hn]; [done|].
      assert (Qle_bool (inject_Z 1024) f = true) as Ht; [|congruence].
      apply Qle_bool_iff. rewrite Hf.
      apply (proj2 (Qle_inject_div 1024 n _ Hpos)). lia.
Qed.

Lemma Qlt_inject_div a n p :
  0 < p → (inject_Z n / inject_Z p < inject_Z a)%Q ↔ n < a * p.
Proof.
  intros Hp. destruct p as [|p|p]; try lia.
  unfold Qlt, Qdiv, Qmult, Qinv, inject_Z. simpl. lia.
Qed.

(** X15. For a size within the exact range of a float, [human_size] picks the
    unit [units[k]] with [1024^k <= n < 1024^(k+1)], stopping at TB, and the
    number it shows is [n / 1024^k]: at least 1 unless the unit is B and
    below 1024 unless the unit is TB. *)
Theorem human_size_unit n :
  - 2 ^ 53 ≤ n ≤ 2 ^ 53 →
  ∃ k : nat,
    (k ≤ 4)%nat
    ∧ units !! k = Some (human_size n).2
    ∧ ((human_size n).1 == inject_Z n / inject_Z (1024 ^ Z.of_nat k))%Q
    ∧ (k = 0%nat ∨ 1024 ^ Z.of_nat k ≤ n)
    ∧ (k = 4%nat ∨ n < 1024 ^ (Z.of_nat k + 1))
    ∧ (k ≠ 0%nat → (inject_Z 1 <= (human_size n).1)%Q)
    ∧ (k ≠ 4%nat → ((human_size n).1 < inject_Z 1024)%Q).
Proof.
  intros _. unfold human_size. cbn zeta. cbn [fst snd].
  destruct (human_size_loop_spec n (length units - 1) 0 (inject_Z n))
    as (Hk & Hf & Hlow & Hhigh).
  - unfold Qeq, Qdiv, Qmult, Qinv, inject_Z. simpl. lia.
  - by left.
  - simpl. lia.
  - simpl. lia.
  - set (r := human_size_loop (length units - 1) (inject_Z n) 0) in *.
    change (length units - 1)%nat with 4%nat in *.
    exists r.2. split; [lia|]. split.
    { assert (r.2 < length units)%nat as Hlt by (simpl; lia).
      destruct (nth_lookup_or_length units r.2 "") as [H|H]; [done|lia]. }
    split; [done|]. split; [done|]. split; [done|].
    assert (0 < 1024 ^ Z.of_nat r.2) as Hpos by (apply Z.pow_pos_nonneg; lia).
    split.
    + intros Hne. rewrite Hf. apply (proj2 (Qle_inject_div 1 n _ Hpos)).
      destruct Hlow; [done|lia].
    + intros Hne. rewrite Hf. apply (proj2 (Qlt_inject_div 1024 n _ Hpos)).
      destruct Hhigh as [|Hhigh]; [done|].
      rewrite Z.pow_add_r in Hhigh by lia. change (1024 ^ 1) with 1024 in Hhigh.
      lia.
Qed.

End Handlers.

(** * Concrete runs *)

(** ** The theorems at these inputs *)

Lemma one_time_cleanup_not_run_witness :
  db sample_world !! "k1" = Some sample_row
  ∧ one_time sample_row = true
  ∧ (download "k1" 150 sample_world).1
      = SendFile "k1.txt" abc "notes.txt" "text/plain" (Some ("k1", sample_row))
  ∧ files (wsgi_finish (download "k1" 150 sample_world).1
                       (download "k1" 150 sample_world).2) !! "k1.txt" = Some abc
  ∧ (download "k1" 160
       (wsgi_finish (download "k1" 150 sample_world).1
                    (download "k1" 150 sample_world).2)).1
      = SendFile "k1.txt" abc "notes.txt" "text/plain"
          (Some ("k1", incr_downloads sample_row)).
Proof.
  assert (db sample_world !! "k1" = Some sample_row) as H1 by reflexivity.
  assert (files sample_world !! stored_name sample_row = Some abc) as H6
    by reflexivity.
  pose proof (one_time_cleanup_not_run "k1" sample_row abc 150 160 sample_world
                H1 eq_refl eq_refl eq_refl eq_refl H6) as T.
  split; [exact H1|]. split; [reflexivity|]. split; [exact (proj1 T)|].
  split; [exact (proj1 (proj2 (proj2 (proj2 T))))|].
  exact (proj2 (proj2 (proj2 (proj2 (proj2 T))))).
Defined.

Lemma cleanup_on_response_close_witness :
  db sample_world !! "k1" = Some sample_row
  ∧ is_expired 150 sample_row = false
  ∧ (download "k1" 150 sample_world).1
      = SendFile "k1.txt" abc "notes.txt" "text/plain" (Some ("k1", sample_row))
  ∧ ∃ r1, db (download "k1" 150 sample_world).2 !! "k1" = Some r1 ∧ downloads r1 = 1.
Proof.
  assert (db sample_world !! "k1" = Some sample_row) as H1 by reflexivity.
  assert (is_expired 150 sample_row = false) as H4 by reflexivity.
  assert (files sample_world !! stored_name sample_row = Some abc) as H5
    by reflexivity.
  pose proof (cleanup_on_response_close keep_name txt_ext no_guess
                "k1" sample_row abc 150 sample_world H1 eq_refl eq_refl H4 H5) as T.
  split; [exact H1|]. split; [exact H4|].
  split; [exact (proj1 T)|exact (proj1 (proj2 T))].
Defined.

Lemma view_file_expired_purges_witness :
  db sample_world !! "k1" = Some sample_row
  ∧ expires_at sample_row = Some 200
  ∧ 200 < 300
  ∧ (view_file "k1" 300 sample_world).1 = DetailPage "k1" sample_row false
  ∧ db (view_file "k1" 300 sample_world).2 !! "k1" = None.
Proof.
  assert (db sample_world !! "k1" = Some sample_row) as H1 by reflexivity.
  assert (200 < 300) as H3 by lia.
  pose proof (view_file_expired_purges keep_name txt_ext no_guess
                "k1" sample_row 200 300 sample_world H1 eq_refl H3) as T.
  split; [exact H1|]. split; [reflexivity|]. split; [exact H3|].
  split; [exact (proj1 T)|exact (proj1 (proj2 T))].
Defined.

Lemma not_expired_at_deadline_witness :
  db sample_world !! "k1" = Some sample_row
  ∧ expires_at sample_row = Some 200
  ∧ view_file "k1" 200 sample_world = (DetailPage "k1" sample_row true, sample_world)
  ∧ (download "k1" 200 sample_world).1 ≠ Abort 410.
Proof.
  assert (db sample_world !! "k1" = Some sample_row) as H1 by reflexivity.
  pose proof (not_expired_at_deadline "k1" sample_row 200 sample_world H1 eq_refl) as T.
  split; [exact H1|]. split; [reflexivity|].
  split; [exact (proj1 (proj2 (proj2 T)))|exact (proj1 (proj2 (proj2 (proj2 T))))].
Defined.

Lemma download_status_witness :
  (download "k1" 300 sample_world).1 = Abort 410.
Proof.
  apply (proj1 (proj2 (download_status "k1" 300 sample_world))).
  exists sample_row, 200. split; [reflexivity|]. split; [reflexivity|lia].
Defined.

Lemma missing_file_purged_on_download_witness :
  db orphan_world !! "k1" = Some sample_row
  ∧ files orphan_world !! stored_name sample_row = None
  ∧ (download "k1" 150 orphan_world).1 = Abort 404
  ∧ db (download "k1" 150 orphan_world).2 !! "k1" = None.
Proof.
  assert (db orphan_world !! "k1" = Some sample_row) as H1 by reflexivity.
  assert (files orphan_world !! stored_name sample_row = None) as H2 by reflexivity.
  pose proof (missing_file_purged_on_download "k1" sample_row 150 orphan_world H1 H2)
    as T.
  split; [exact H1|]. split; [exact H2|].
  split; [exact (proj1 T)|exact (proj1 (proj2 T))].
Defined.

Lemma downloads_monotone_witness :
  db sample_world !! "k1" = Some sample_row
  ∧ db (step keep_name txt_ext no_guess (OpDownload "k1" 150) sample_world).2 !! "k1"
      = Some (incr_downloads sample_row)
  ∧ downloads sample_row ≤ downloads (incr_downloads sample_row).
Proof.
  assert (db sample_world !! "k1" = Some sample_row) as H1 by reflexivity.
  assert (db (step keep_name txt_ext no_guess (OpDownload "k1" 150) sample_world).2
            !! "k1" = Some (incr_downloads sample_row)) as H2 by reflexivity.
  split; [exact H1|]. split; [exact H2|].
  exact (proj1 (downloads_monotone keep_name txt_ext no_guess
                  (OpDownload "k1" 150) sample_world "k1" sample_row
                  (incr_downloads sample_row) H1 H2)).
Defined.

Lemma upload_expiry_policy_witness :
  file_field (sample_form (FieldInt 500)) = Some ("notes.txt", abc)
  ∧ "notes.txt" ≠ ""
  ∧ db empty_world !! "tok" = None
  ∧ ∃ row,
      (upload keep_name txt_ext no_guess (sample_form (FieldInt 500)) "tok" SaveOk
              1000 1007 empty_world).1 = RedirectView "tok"
      ∧ db (upload keep_name txt_ext no_guess (sample_form (FieldInt 500)) "tok"
                   SaveOk 1000 1007 empty_world).2 !! "tok" = Some row
      ∧ created_at row = 1007
      ∧ expires_at row = Some (1000 + timedelta_hours 168).
Proof.
  assert ("notes.txt" ≠ "") as H2 by discriminate.
  assert (db empty_world !! "tok" = None) as H3 by reflexivity.
  destruct (upload_expiry_policy keep_name txt_ext no_guess
              (sample_form (FieldInt 500)) "tok" "notes.txt" abc 1000 1007
              empty_world eq_refl H2 H3)
    as (row & Hresp & Hrow & Hcreated & _ & _ & Hclamp & _).
  split; [reflexivity|]. split; [exact H2|]. split; [exact H3|].
  exists row. split; [exact Hresp|]. split; [exact Hrow|]. split; [exact Hcreated|].
  apply Hclamp. reflexivity.
Defined.

Lemma upload_negative_hours_never_expires_witness :
  file_field (sample_form (FieldInt (-5))) = Some ("notes.txt", abc)
  ∧ requested_hours (sample_form (FieldInt (-5))) < 0
  ∧ ∃ row,
      (upload keep_name txt_ext no_guess (sample_form (FieldInt (-5))) "tok" SaveOk
              1000 1007 empty_world).1 = RedirectView "tok"
      ∧ db (upload keep_name txt_ext no_guess (sample_form (FieldInt (-5))) "tok"
                   SaveOk 1000 1007 empty_world).2 !! "tok" = Some row
      ∧ expires_at row = None.
Proof.
  assert ("notes.txt" ≠ "") as H2 by discriminate.
  assert (db empty_world !! "tok" = None) as H3 by reflexivity.
  assert (requested_hours (sample_form (FieldInt (-5))) < 0) as H4 by reflexivity.
  destruct (upload_negative_hours_never_expires keep_name txt_ext no_guess
              (sample_form (FieldInt (-5))) "tok" "notes.txt" abc 1000 1007
              empty_world eq_refl H2 H3 (or_introl H4))
    as (row & Hresp & Hrow & Hexp & _).
  split; [reflexivity|]. split; [exact H4|].
  exists row. split; [exact Hresp|]. split; [exact Hrow|exact Hexp].
Defined.

Lemma upload_row_only_after_file_witness :
  db (upload keep_name txt_ext no_guess (sample_form (FieldInt 1)) "tok"
             (SaveFailed (Some [Byte.x61])) 1000 1007 empty_world).2 = db empty_world
  ∧ files (upload keep_name txt_ext no_guess (sample_form (FieldInt 1)) "tok"
                  (SaveFailed (Some [Byte.x61])) 1000 1007 empty_world).2
      !! "tok.txt" = Some [Byte.x61].
Proof.
  destruct (upload_row_only_after_file keep_name txt_ext no_guess
              (sample_form (FieldInt 1)) "tok" (SaveFailed (Some [Byte.x61]))
              1000 1007 empty_world) as (new & _ & _ & Hfail).
  split; [exact (proj1 (Hfail _ eq_refl))|reflexivity].
Defined.

Lemma recent_newest_20_witness :
  is_expired 300 sample_row = true
  ∧ (size (db sample_world) ≤ 20)%nat
  ∧ ("k1", sample_row) ∈ select_recent sample_world.
Proof.
  assert ((size (db sample_world) ≤ 20)%nat) as H1 by (vm_compute; lia).
  split; [reflexivity|]. split; [exact H1|].
  apply (proj2 (proj2 (proj2 (proj2 (proj2 (proj2 (proj2 (proj2
           (recent_newest_20 sample_world))))))))); [exact H1|reflexivity].
Defined.

(** ** The further properties at these inputs *)

Lemma upload_without_file_witness :
  (upload keep_name txt_ext no_guess (mkUploadForm None (FieldInt 1) None) "tok"
          SaveOk 0 1 sample_world).2 = sample_world.
Proof.
  apply (proj2 (proj1 (upload_without_file keep_name txt_ext no_guess
                         (mkUploadForm None (FieldInt 1) None) "tok" SaveOk 0 1
                         sample_world))).
  left. reflexivity.
Defined.

Lemma upload_then_download_witness :
  db empty_world !! "tok" = None
  ∧ (download "tok" 50
       (upload keep_name txt_ext no_guess (sample_form (FieldInt 1)) "tok" SaveOk
               0 1 empty_world).2).1
    = SendFile "tok.txt" abc "notes.txt" "application/octet-stream"
        (Some ("tok", upload_row keep_name txt_ext no_guess
                        (sample_form (FieldInt 1)) "tok" "notes.txt" abc 0 1)).
Proof.
  assert ("notes.txt" ≠ "") as H2 by discriminate.
  assert (db empty_world !! "tok" = None) as H3 by reflexivity.
  split; [exact H3|].
  exact (proj1 (proj2 (upload_then_download keep_name txt_ext no_guess
                         (sample_form (FieldInt 1)) "tok" "notes.txt" abc 0 1 50
                         empty_world eq_refl H2 H3 eq_refl))).
Defined.

Lemma upload_token_collision_witness :
  db sample_world !! "k1" = Some sample_row
  ∧ (upload keep_name txt_ext no_guess
            (mkUploadForm (Some ("other.txt", [Byte.x7a])) (FieldInt 1) None)
            "k1" SaveOk 0 1 sample_world).1 = InternalError
  ∧ (download "k1" 150
       (upload keep_name txt_ext no_guess
               (mkUploadForm (Some ("other.txt", [Byte.x7a])) (FieldInt 1) None)
               "k1" SaveOk 0 1 sample_world).2).1
    = SendFile "k1.txt" [Byte.x7a] "notes.txt" "text/plain" (Some ("k1", sample_row)).
Proof.
  assert ("other.txt" ≠ "") as H2 by discriminate.
  assert (db sample_world !! "k1" = Some sample_row) as H3 by reflexivity.
  pose proof (upload_token_collision keep_name txt_ext no_guess
                (mkUploadForm (Some ("other.txt", [Byte.x7a])) (FieldInt 1) None)
                "k1" "other.txt" [Byte.x7a] sample_row 0 1 150 sample_world
                eq_refl H2 H3) as T.
  split; [exact H3|]. split; [exact (proj1 T)|].
  exact (proj2 (proj2 (proj2 T)) eq_refl eq_refl).
Defined.

Lemma stored_expiry_within_week_witness :
  expires_at (upload_row keep_name txt_ext no_guess (sample_form (FieldInt 500))
                         "tok" "notes.txt" abc 1000 1007)
    = Some (1000 + timedelta_hours 168)
  ∧ 1000 < 1000 + timedelta_hours 168 ≤ 1000 + timedelta_hours 168.
Proof.
  assert (expires_at (upload_row keep_name txt_ext no_guess
                        (sample_form (FieldInt 500)) "tok" "notes.txt" abc 1000 1007)
          = Some (1000 + timedelta_hours 168)) as H by reflexivity.
  split; [exact H|].
  exact (proj1 (stored_expiry_within_week keep_name txt_ext no_guess
                  (sample_form (FieldInt 500)) "tok" "notes.txt" abc 1000 1007
                  _ H)).
Defined.

Lemma gone_only_once_witness :
  db sample_world !! "k1" = Some sample_row
  ∧ 200 < 300
  ∧ (download "k1" 300 sample_world).1 = Abort 410
  ∧ (download "k1" 301 (download "k1" 300 sample_world).2).1 = Abort 404.
Proof.
  assert (db sample_world !! "k1" = Some sample_row) as H1 by reflexivity.
  assert (200 < 300) as H3 by lia.
  pose proof (gone_only_once "k1" sample_row 200 300 sample_world H1 eq_refl H3) as T.
  split; [exact H1|]. split; [exact H3|]. split; [exact (proj1 T)|].
  exact (f_equal fst (proj1 (proj2 (proj2 (proj2 T)) 301))).
Defined.


Lemma delete_file_record_idempotent_witness :
  db empty_world !! "k1" = None
  ∧ db (_delete_file_record ("k1", sample_row) empty_world) = db empty_world.
Proof.
  assert (db empty_world !! "k1" = None) as H1 by reflexivity.
  assert (files empty_world !! stored_name sample_row = None) as H2 by reflexivity.
  split; [exact H1|].
  exact (proj1 (proj2 (proj2 (delete_file_record_idempotent ("k1", sample_row)
                                empty_world)) H1 H2)).
Defined.

Lemma standard_record_downloads_witness :
  db standard_world !! "k2" = Some standard_row
  ∧ db (run keep_name txt_ext no_guess
          (download_and_close "k2"
             (SendFile "k2.txt" abc "report.txt" "application/octet-stream" None)
             [10; 20; 30])
          standard_world) !! "k2"
    = Some (Nat.iter 3 incr_downloads standard_row).
Proof.
  assert (db standard_world !! "k2" = Some standard_row) as H1 by reflexivity.
  assert (files standard_world !! stored_name standard_row = Some abc) as H3
    by reflexivity.
  assert (Forall (λ t, is_expired t standard_row = false) [10; 20; 30]) as H4
    by (repeat constructor).
  split; [exact H1|].
  exact (proj1 (standard_record_downloads keep_name txt_ext no_guess "k2"
                  standard_row abc [10; 20; 30] standard_world H1 eq_refl H3 H4)).
Defined.


Lemma row_columns_immutable_witness :
  db standard_world !! "k2" = Some standard_row
  ∧ created_at (Nat.iter 2 incr_downloads standard_row) = created_at standard_row.
Proof.
  assert (db standard_world !! "k2" = Some standard_row) as H1 by reflexivity.
  assert (db (run keep_name txt_ext no_guess
                [OpDownload "k2" 10; OpView "k2" 20; OpRecent; OpDownload "k2" 30]
                standard_world) !! "k2"
          = Some (Nat.iter 2 incr_downloads standard_row)) as H2 by reflexivity.
  assert (Forall (λ op, op_token op ≠ Some "k2")
            [OpDownload "k2" 10; OpView "k2" 20; OpRecent; OpDownload "k2" 30])
    as H3 by (repeat constructor; discriminate).
  split; [exact H1|].
  exact (proj1 (proj2 (proj2 (proj2 (proj2
           (row_columns_immutable keep_name txt_ext no_guess _ standard_world "k2"
              standard_row _ H1 H2 H3)))))).
Defined.

Lemma recent_shows_new_upload_first_witness :
  db sample_world !! "tok" = None
  ∧ ∃ rest,
      select_recent
        (upload keep_name txt_ext no_guess (sample_form (FieldInt 1)) "tok" SaveOk
                500 501 sample_world).2
      = ("tok", upload_row keep_name txt_ext no_guess (sample_form (FieldInt 1))
                  "tok" "notes.txt" abc 500 501) :: rest.
Proof.
  assert ("notes.txt" ≠ "") as H2 by discriminate.
  assert (db sample_world !! "tok" = None) as H3 by reflexivity.
  assert (∀ fid row, db sample_world !! fid = Some row → created_at row < 501) as H4.
  { intros fid row Hrow. cbn [sample_world db] in Hrow.
    apply lookup_singleton_Some in Hrow as [_ <-]. reflexivity. }
  split; [exact H3|].
  destruct (recent_shows_new_upload_first keep_name txt_ext no_guess
              (sample_form (FieldInt 1)) "tok" "notes.txt" abc 500 501 sample_world
              eq_refl H2 H3 H4) as (rest & Hsel & _).
  exists rest. exact Hsel.
Defined.

Lemma no_row_without_file_witness :
  genuine keep_name txt_ext no_guess 3 []
    [OpUpload (sample_form FieldAbsent) "tok" SaveOk 0 1; OpDownload "tok" 5;
     OpUpload (sample_form (FieldInt 0)) "abc" (SaveFailed None) 6 7;
     OpClose (SendFile "tok.txt" abc "notes.txt" "application/octet-stream"
                (Some ("tok", upload_row keep_name txt_ext no_guess
                                (sample_form FieldAbsent) "tok" "notes.txt" abc 0 1)))]
    empty_world
  ∧ rows_have_files 3
      (run keep_name txt_ext no_guess
         [OpUpload (sample_form FieldAbsent) "tok" SaveOk 0 1; OpDownload "tok" 5;
          OpUpload (sample_form (FieldInt 0)) "abc" (SaveFailed None) 6 7;
          OpClose (SendFile "tok.txt" abc "notes.txt" "application/octet-stream"
                     (Some ("tok", upload_row keep_name txt_ext no_guess
                                     (sample_form FieldAbsent) "tok" "notes.txt"
                                     abc 0 1)))]
         empty_world).
Proof.
  assert (genuine keep_name txt_ext no_guess 3 []
            [OpUpload (sample_form FieldAbsent) "tok" SaveOk 0 1; OpDownload "tok" 5;
             OpUpload (sample_form (FieldInt 0)) "abc" (SaveFailed None) 6 7;
             OpClose (SendFile "tok.txt" abc "notes.txt" "application/octet-stream"
                        (Some ("tok", upload_row keep_name txt_ext no_guess
                                        (sample_form FieldAbsent) "tok" "notes.txt"
                                        abc 0 1)))]
            empty_world) as H.
  { cbn [genuine]. split; [reflexivity|]. split; [exact I|].
    split; [reflexivity|]. split; [|exact I].
    apply elem_of_cons. right. apply elem_of_cons. left. reflexivity. }
  split; [exact H|].
  exact (proj1 (no_row_without_file keep_name txt_ext no_guess 3 _ H)).
Defined.

Lemma human_size_unit_witness :
  - 2 ^ 53 ≤ 1536 ≤ 2 ^ 53
  ∧ ∃ k : nat, units !! k = Some (human_size 1536).2
               ∧ (k = 0%nat ∨ 1024 ^ Z.of_nat k ≤ 1536).
Proof.
  assert (- 2 ^ 53 ≤ 1536 ≤ 2 ^ 53) as H by (vm_compute; split; discriminate).
  split; [exact H|].
  destruct (human_size_unit 1536 H) as (k & _ & Hu & _ & Hlow & _).
  exists k. split; [exact Hu|exact Hlow].
Defined.

Lemma downloads_run_witness :
  db standard_world !! "k2" = Some standard_row
  ∧ downloads (Nat.iter 2 incr_downloads standard_row)
    = downloads standard_row
      + count_served keep_name txt_ext no_guess "k2"
          [OpDownload "k2" 10; OpView "k2" 20; OpRecent; OpDownload "k2" 30]
          standard_world.
Proof.
  assert (db standard_world !! "k2" = Some standard_row) as H1 by reflexivity.
  assert (db (run keep_name txt_ext no_guess
                [OpDownload "k2" 10; OpView "k2" 20; OpRecent; OpDownload "k2" 30]
                standard_world) !! "k2"
          = Some (Nat.iter 2 incr_downloads standard_row)) as H2 by reflexivity.
  assert (Forall (λ op, op_token op ≠ Some "k2")
            [OpDownload "k2" 10; OpView "k2" 20; OpRecent; OpDownload "k2" 30])
    as H3 by (repeat constructor; discriminate).
  split; [exact H1|].
  exact (downloads_run keep_name txt_ext no_guess _ standard_world "k2"
           standard_row _ H1 H2 H3).
Defined.

Lemma upload_default_hours_witness :
  expires_field (sample_form FieldAbsent) = FieldAbsent
  ∧ ∃ row,
      db (upload keep_name txt_ext no_guess (sample_form FieldAbsent) "tok" SaveOk
                 1000 1007 empty_world).2 !! "tok" = Some row
      ∧ expires_at row = Some (1000 + timedelta_hours 24).
Proof.
  assert ("notes.txt" ≠ "") as H2 by discriminate.
  assert (db empty_world !! "tok" = None) as H3 by reflexivity.
  split; [reflexivity|].
  exact (upload_default_hours keep_name txt_ext no_guess (sample_form FieldAbsent)
           "tok" "notes.txt" abc 1000 1007 empty_world eq_refl H2 H3
           (or_introl eq_refl)).
Defined.

(** ** Where the stated behaviour and the code part ways *)

(** The expiry stored by an upload is counted from its own clock reading,
    not from the later reading stored as [created_at]: with the readings
    0 and 1 and one hour requested, [expires_at] is one hour after 0. *)
Lemma upload_expiry_not_from_created_at :
  ∃ row,
    db (upload keep_name txt_ext no_guess (sample_form (FieldInt 1)) "tok" SaveOk
               0 1 empty_world).2 !! "tok" = Some row
    ∧ requested_hours (sample_form (FieldInt 1)) = 1
    ∧ created_at row = 1
    ∧ expires_at row = Some 3600000000
    ∧ expires_at row ≠ Some (created_at row + timedelta_hours (Z.min 1 168)).
Proof.
  eexists. split; [vm_compute; reflexivity|].
  split; [reflexivity|]. split; [reflexivity|]. split; [reflexivity|].
  vm_compute. discriminate.
Qed.

(** Viewing an expired record answers the detail page, not 404. *)
Lemma view_file_expired_answers_page :
  db sample_world !! "k1" = Some sample_row
  ∧ expires_at sample_row = Some 200
  ∧ 200 < 300
  ∧ (view_file "k1" 300 sample_world).1 = DetailPage "k1" sample_row false
  ∧ (view_file "k1" 300 sample_world).1 ≠ Abort 404.
Proof.
  split; [reflexivity|]. split; [reflexivity|]. split; [lia|].
  split; [reflexivity|]. vm_compute. discriminate.
Qed.

(** A record that is expired and whose file is missing: the download
    answers 410, not the 404 of a missing file. *)
Lemma download_expired_missing_file_is_410 :
  db orphan_world !! "k1" = Some sample_row
  ∧ files orphan_world !! stored_name sample_row = None
  ∧ (download "k1" 300 orphan_world).1 = Abort 410
  ∧ (download "k1" 300 orphan_world).1 ≠ Abort 404.
Proof.
  split; [reflexivity|]. split; [reflexivity|]. split; [reflexivity|].
  vm_compute. discriminate.
Qed.

(** Viewing an unexpired record whose file is missing: the page is served
    with the download offered, and the row stays. *)
Lemma view_file_ignores_missing_file :
  db orphan_world !! "k1" = Some sample_row
  ∧ files orphan_world !! stored_name sample_row = None
  ∧ (view_file "k1" 150 orphan_world).1 = DetailPage "k1" sample_row true
  ∧ (view_file "k1" 150 orphan_world).1 ≠ Abort 404
  ∧ db (view_file "k1" 150 orphan_world).2 !! "k1" = Some sample_row.
Proof.
  split; [reflexivity|]. split; [reflexivity|]. split; [reflexivity|].
  split; [vm_compute; discriminate|reflexivity].
Qed.
